(** * Signal evaluation and order execution pipeline of the trading bot

    A shallow embedding of [src/lambda_function.py]: the per-symbol pipeline
    [evaluate_and_trade], its helpers, and the orchestrating [lambda_handler].

    Python floats are IEEE-754 binary64 values: they are Rocq's primitive
    floats.  Every call that leaves the process (market data, brokerage,
    metrics sink) is an operation of a state-and-exception monad over an
    abstract world; each call is recorded in a trace together with whether it
    returned or raised.  The TA-Lib routines are parameters of the runtime.

    Left out: the [logger] calls, which return nothing the program reads,
    and [tz_convert], which relabels timestamps without touching the rows. *)

From Stdlib Require Import Floats ZArith List String Ascii Bool Arith Lia.
From Stdlib Require Import Sorting.Sorted Sorting.Permutation.
Import ListNotations.
Local Open Scope string_scope.
Local Open Scope list_scope.

(** ** Python built-ins used by the source *)

Module PyStr.

(** [str.isspace] on code points below 128: TAB..CR, FS..US and SPACE. *)
Definition isspace (c : ascii) : bool :=
  let n := nat_of_ascii c in
  (((9 <=? n) && (n <=? 13)) || ((28 <=? n) && (n <=? 32)))%nat.

(** [str.upper] on one code point below 128; others are left alone. *)
Definition toupper (c : ascii) : ascii :=
  let n := nat_of_ascii c in
  if ((97 <=? n) && (n <=? 122))%nat then ascii_of_nat (n - 32) else c.

Fixpoint lstrip (s : string) : string :=
  match s with
  | EmptyString => EmptyString
  | String c s' => if isspace c then lstrip s' else s
  end.

Fixpoint rstrip (s : string) : string :=
  match s with
  | EmptyString => EmptyString
  | String c s' =>
      let r := rstrip s' in
      if isspace c && (r =? "") then "" else String c r
  end.

(** [s.strip()] *)
Definition strip (s : string) : string := rstrip (lstrip s).

(** [s.upper()] *)
Fixpoint upper (s : string) : string :=
  match s with
  | EmptyString => EmptyString
  | String c s' => String (toupper c) (upper s')
  end.

(** Truth value of a string in a condition: [if symbol:]. *)
Definition truthy (s : string) : bool := negb (s =? "").

End PyStr.

Module PySeq.

(** [l[k:]] with Python's treatment of negative and out-of-range [k]. *)
Definition slice_from {A} (k : Z) (l : list A) : list A :=
  let n := Z.of_nat (List.length l) in
  let start := if (k <? 0)%Z then Z.max 0 (n + k) else Z.min k n in
  skipn (Z.to_nat start) l.

(** Stable insertion sort by an integer key ([sort_index]). *)
Fixpoint insert_by {A} (key : A -> Z) (x : A) (l : list A) : list A :=
  match l with
  | [] => [x]
  | y :: l' => if (key x <? key y)%Z then x :: l else y :: insert_by key x l'
  end.

Definition sort_by {A} (key : A -> Z) (l : list A) : list A :=
  fold_left (fun acc x => insert_by key x acc) l [].

End PySeq.

(** ** Data model *)

Inductive OrderSide := BUY | SELL.
Inductive TimeInForce := DAY.

(** A market order is sized either by notional value or by quantity. *)
Inductive Sizing := Notional (x : float) | Qty (x : float).

Record MarketOrderRequest := {
  order_symbol : string;
  order_sizing : Sizing;
  order_side : OrderSide;
  time_in_force : TimeInForce
}.

Record StockBarsRequest := {
  symbol_or_symbols : list string;
  (** [end - start] in minutes; [end] is the venue's current time *)
  lookback_minutes : Z
}.

(** One row of [bars.df]: index (symbol, timestamp), column [close]. *)
Record Bar := {
  bar_symbol : string;
  bar_timestamp : Z;
  bar_close : float
}.

(** A frame of bars: its column labels and its rows. [bar_close] is the cell
    of column ["close"]; it is meaningful only when that column is present. *)
Record BarsFrame := {
  columns : list string;
  rows : list Bar
}.

(** [pd.DataFrame()] *)
Definition empty_frame : BarsFrame := {| columns := []; rows := [] |}.

(** [df.empty]: some axis has length zero. *)
Definition frame_empty (df : BarsFrame) : bool :=
  match columns df, rows df with
  | [], _ => true
  | _, [] => true
  | _, _ => false
  end.

Definition has_column (name : string) (df : BarsFrame) : bool :=
  existsb (String.eqb name) (columns df).

(** The position the brokerage reports, fields already read as floats. *)
Record Position := {
  qty : float;
  unrealized_pl : float
}.

Record MetricDatum := {
  MetricName : string;
  Dimensions : list (string * string);
  Value : float;
  Unit : string
}.

(** Row of the indicator frame built by [compute_indicators]. *)
Record IndicatorRow := {
  close : float;
  rsi14 : float;
  ema9 : float
}.

(** Values stored in the per-symbol result dictionaries. *)
Inductive value :=
| VStr (s : string)
| VNum (x : float).

(** A result dictionary, as an association list in insertion order. *)
Definition record := list (string * value).

Fixpoint dict_get (k : string) (d : record) : option value :=
  match d with
  | [] => None
  | (k', v) :: d' => if k =? k' then Some v else dict_get k d'
  end.

Definition action_of (d : record) : option value := dict_get "action" d.
Definition symbol_of (d : record) : option value := dict_get "symbol" d.

(** What [lambda_handler] returns. *)
Record Response := {
  statusCode : Z;
  body : list record
}.

(** ** Effects *)

(** A raised exception, identified with [str(e)]. *)
Inductive result (A : Type) : Type :=
| Ok (a : A)
| Raise (msg : string).
Arguments Ok {A} a.
Arguments Raise {A} msg.

Definition is_ok {A} (r : result A) : bool :=
  match r with Ok _ => true | Raise _ => false end.

(** Calls that leave the process. *)
Inductive call :=
| GetStockBars (req : StockBarsRequest)
| GetAccount
| GetPosition (symbol : string)
| SubmitOrder (req : MarketOrderRequest)
| PutMetricData (namespace : string) (datum : MetricDatum).

(** A performed call and whether it returned ([true]) or raised. *)
Record event := {
  ev_call : call;
  ev_ok : bool
}.

(** The collaborators and module-level configuration of the source. *)
Record Runtime (W : Type) := {
  (** [data_client.get_stock_bars(req).df] *)
  get_stock_bars : StockBarsRequest -> W -> W * result BarsFrame;
  (** [float(trading_client.get_account().equity)] *)
  get_account : W -> W * result float;
  (** [trading_client.get_position(symbol)]; raises when there is none *)
  get_position : string -> W -> W * result Position;
  (** [trading_client.submit_order(order_data=req).id] *)
  submit_order : MarketOrderRequest -> W -> W * result string;
  (** [cw.put_metric_data(Namespace=..., MetricData=[datum])] *)
  put_metric_data : string -> MetricDatum -> W -> W * result unit;
  (** [talib.RSI(values, timeperiod)] and [talib.EMA(values, timeperiod)] *)
  talib_RSI : list float -> Z -> result (list float);
  talib_EMA : list float -> Z -> result (list float);
  (** module-level configuration *)
  SYMBOLS : list string;
  RISK_PCT : float;
  MINUTES_HISTORY : Z
}.
Arguments get_stock_bars {W}.
Arguments get_account {W}.
Arguments get_position {W}.
Arguments submit_order {W}.
Arguments put_metric_data {W}.
Arguments talib_RSI {W}.
Arguments talib_EMA {W}.
Arguments SYMBOLS {W}.
Arguments RISK_PCT {W}.
Arguments MINUTES_HISTORY {W}.

Record state (W : Type) := {
  world : W;
  trace : list event
}.
Arguments world {W}.
Arguments trace {W}.
Arguments Build_state {W}.

(** State-and-exception monad: the state survives a raise. *)
Definition M (W A : Type) : Type := state W -> state W * result A.

Definition ret {W A} (a : A) : M W A := fun st => (st, Ok a).

Definition bind {W A B} (m : M W A) (k : A -> M W B) : M W B :=
  fun st =>
    match m st with
    | (st', Ok a) => k a st'
    | (st', Raise msg) => (st', Raise msg)
    end.

(** [try: m  except Exception as e: handler(str(e))] *)
Definition try_except {W A} (m : M W A) (handler : string -> M W A) : M W A :=
  fun st =>
    match m st with
    | (st', Ok a) => (st', Ok a)
    | (st', Raise msg) => handler msg st'
    end.

Definition lift {W A} (r : result A) : M W A := fun st => (st, r).

(** Perform an external call and log it. *)
Definition perform {W A} (c : call) (h : W -> W * result A) : M W A :=
  fun st =>
    let (w', r) := h (world st) in
    ({| world := w'; trace := trace st ++ [{| ev_call := c; ev_ok := is_ok r |}] |}, r).

(** [for x in xs: acc = body(acc, x)] *)
Fixpoint for_each {W A S} (xs : list A) (body : S -> A -> M W S) (acc : S) : M W S :=
  match xs with
  | [] => ret acc
  | x :: xs' => bind (body acc x) (for_each xs' body)
  end.

Declare Scope py_scope.
Delimit Scope py_scope with py.
Notation "x <- m ;; k" := (bind m (fun x => k))
  (at level 61, m at next level, right associativity) : py_scope.
Notation "m ;; k" := (bind m (fun _ => k))
  (at level 61, right associativity) : py_scope.

Notation "x >? y" := (PrimFloat.ltb y x)
  (at level 70, no associativity, only parsing) : float_scope.

(** ** The program *)

Section Pipeline.
Context {W : Type} (rt : Runtime W).
Local Open Scope py_scope.

(** What pandas raises when a column of the wrong length is assigned. *)
Definition length_mismatch : string :=
  "Length of values does not match length of index".

(** [df[name] = values] on a frame with [n] rows. *)
Definition assign_column (n : nat) (values : list float) : result (list float) :=
  if (List.length values =? n)%nat then Ok values else Raise length_mismatch.

(** [compute_indicators(close_series)]: columns close, rsi14, ema9. *)
Definition compute_indicators (close_series : list float) : result (list IndicatorRow) :=
  let n := List.length close_series in
  match talib_RSI rt close_series 14 with
  | Raise msg => Raise msg
  | Ok values =>
      match assign_column n values with
      | Raise msg => Raise msg
      | Ok rsi =>
          match talib_EMA rt close_series 9 with
          | Raise msg => Raise msg
          | Ok values' =>
              match assign_column n values' with
              | Raise msg => Raise msg
              | Ok ema =>
                  Ok (map (fun '(c, (r, e)) => {| close := c; rsi14 := r; ema9 := e |})
                          (combine close_series (combine rsi ema)))
              end
          end
      end
  end.

(** [df.dropna()]: drop the rows holding a NaN in any column. *)
Definition dropna (df : list IndicatorRow) : list IndicatorRow :=
  filter (fun r => negb (is_nan (close r) || is_nan (rsi14 r) || is_nan (ema9 r))) df.

(** [fetch_minute_bars(symbol, minutes)] *)
Definition fetch_minute_bars (symbol : string) (minutes : Z) : M W BarsFrame :=
  let req := {| symbol_or_symbols := [symbol]; lookback_minutes := minutes * 2 |} in
  df <- perform (GetStockBars req) (get_stock_bars rt req) ;;
  if negb (existsb (fun b => bar_symbol b =? symbol) (rows df)) then
    ret empty_frame
  else
    let df_sym := filter (fun b => bar_symbol b =? symbol) (rows df) in
    let df_sym := PySeq.sort_by bar_timestamp df_sym in
    let df_sym :=
      if (Z.of_nat (List.length df_sym) >? minutes)%Z
      then PySeq.slice_from (- minutes) df_sym
      else df_sym in
    ret {| columns := columns df; rows := df_sym |}.

(** [get_portfolio_equity()] *)
Definition get_portfolio_equity : M W float :=
  perform GetAccount (get_account rt).

(** [submit_market_notional_order(symbol, side, notional)]; returns the
    order, of which only [id] is read. *)
Definition submit_market_notional_order
    (symbol : string) (side : OrderSide) (notional : float) : M W string :=
  let order_req := {| order_symbol := symbol;
                      order_sizing := Notional notional;
                      order_side := side;
                      time_in_force := DAY |} in
  perform (SubmitOrder order_req) (submit_order rt order_req).

(** [publish_metric(name, value, symbol)] *)
Definition publish_metric (name : string) (value : float) (symbol : string) : M W unit :=
  let dims := [] in
  let dims := if PyStr.truthy symbol then dims ++ [("Symbol", symbol)] else dims in
  let datum := {| MetricName := name;
                  Dimensions := dims;
                  Value := value;
                  Unit := "None" |} in
  perform (PutMetricData "TradingBot" datum) (put_metric_data rt "TradingBot" datum).

(** Filler for [iloc[-1]]; never read, the frame is non-empty there. *)
Definition nan_row : IndicatorRow := {| close := nan; rsi14 := nan; ema9 := nan |}.

(** [evaluate_and_trade(symbol)] *)
Definition evaluate_and_trade (symbol : string) : M W record :=
  df_bars <- fetch_minute_bars symbol (MINUTES_HISTORY rt) ;;
  if frame_empty df_bars || negb (has_column "close" df_bars) then
    ret [("symbol", VStr symbol); ("action", VStr "no_data")]
  else
    let close_series := map bar_close (rows df_bars) in
    df <- lift (compute_indicators close_series) ;;
    let indicators := dropna df in
    match indicators with
    | [] => ret [("symbol", VStr symbol); ("action", VStr "insufficient_data")]
    | _ :: _ =>
        let last := List.last indicators nan_row in
        let c := close last in
        let rsi := rsi14 last in
        let ema9 := ema9 last in
        publish_metric "RSI" rsi symbol ;;
        publish_metric "EMA9" ema9 symbol ;;
        publish_metric "Price" c symbol ;;
        if ((rsi <? 30) && (c <? ema9))%float then
          equity <- get_portfolio_equity ;;
          let notional := (equity * RISK_PCT rt)%float in
          order_id <- submit_market_notional_order symbol BUY notional ;;
          publish_metric "Equity" equity "Portfolio" ;;
          publish_metric "TradeNotional" notional symbol ;;
          publish_metric "BuySignal" 1%float symbol ;;
          ret [("symbol", VStr symbol);
               ("action", VStr "buy");
               ("order_id", VStr order_id);
               ("notional", VNum notional)]
        else if ((rsi >? 70) && (c >? ema9))%float then
          try_except
            (pos <- perform (GetPosition symbol) (get_position rt symbol) ;;
             let pnl := unrealized_pl pos in
             let qty := qty pos in
             publish_metric "TradeQuantity" qty symbol ;;
             publish_metric "PnL" pnl symbol ;;
             let order_req := {| order_symbol := symbol;
                                 order_sizing := Qty qty;
                                 order_side := SELL;
                                 time_in_force := DAY |} in
             order_id <- perform (SubmitOrder order_req) (submit_order rt order_req) ;;
             publish_metric "SellSignal" 1%float symbol ;;
             ret [("symbol", VStr symbol);
                  ("action", VStr "sell");
                  ("order_id", VStr order_id);
                  ("qty", VNum qty)])
            (fun _ => ret [("symbol", VStr symbol); ("action", VStr "nothing_to_sell")])
        else
          ret [("symbol", VStr symbol);
               ("action", VStr "no_signal");
               ("rsi", VNum rsi);
               ("close", VNum c);
               ("ema9", VNum ema9)]
    end.

(** Body of the loop of [lambda_handler]: one symbol, appended to [results]. *)
Definition process_symbol (results : list record) (sym : string) : M W (list record) :=
  try_except
    (result <- evaluate_and_trade (PyStr.upper (PyStr.strip sym)) ;;
     ret (results ++ [result]))
    (fun e => ret (results ++ [[("symbol", VStr sym);
                                ("action", VStr "error");
                                ("error", VStr e)]])).

(** [lambda_handler(event, context)]; neither argument is read. *)
Definition lambda_handler : M W Response :=
  equity <- get_portfolio_equity ;;
  publish_metric "Equity" equity "Portfolio" ;;
  let results := [] in
  results <- for_each (SYMBOLS rt) process_symbol results ;;
  ret {| statusCode := 200; body := results |}.

End Pipeline.

(** ** The indicator library, from its documented recurrences *)

Module SpecTalib.
Local Open Scope float_scope.

Fixpoint float_of_nat (n : nat) : float :=
  match n with
  | O => 0
  | S k => float_of_nat k + 1
  end.

Definition mean (l : list float) : float :=
  fold_left PrimFloat.add l 0 / float_of_nat (List.length l).

(** Successive differences [x1 - x0, x2 - x1, ...]. *)
Fixpoint diffs (prev : float) (l : list float) : list float :=
  match l with
  | [] => []
  | x :: l' => (x - prev) :: diffs x l'
  end.

Definition gain (d : float) : float := if 0 <? d then d else 0.
Definition loss (d : float) : float := if d <? 0 then - d else 0.

(** [100 - 100/(1 + avg_gain/avg_loss)], and [100] when the average loss is
    exactly zero with a nonzero average gain. *)
Definition momentum_index (avg_gain avg_loss : float) : float :=
  if (avg_loss =? 0) && negb (avg_gain =? 0) then 100
  else 100 - 100 / (1 + avg_gain / avg_loss).

(** Wilder smoothing: [avg[t] = (avg[t-1]*(n-1) + x[t]) / n]. *)
Fixpoint wilder (n avg_gain avg_loss : float) (ds : list float) : list float :=
  match ds with
  | [] => []
  | d :: ds' =>
      let avg_gain' := (avg_gain * (n - 1) + gain d) / n in
      let avg_loss' := (avg_loss * (n - 1) + loss d) / n in
      momentum_index avg_gain' avg_loss' :: wilder n avg_gain' avg_loss' ds'
  end.

(** Modelled from the spec: [talib.RSI] belongs to the TA-Lib package, whose
    code is not part of the repository.  Section 4.2: Wilder smoothing seeded
    by the simple average of the first [timeperiod] gains and losses; the
    first [timeperiod] positions are undefined (NaN). *)
Definition RSI (closes : list float) (timeperiod : Z) : result (list float) :=
  let n := Z.to_nat timeperiod in
  match closes with
  | [] => Ok []
  | c0 :: rest =>
      let ds := diffs c0 rest in
      if (List.length ds <? n)%nat then Ok (repeat nan (List.length closes))
      else
        let seed := firstn n ds in
        let avg_gain := mean (map gain seed) in
        let avg_loss := mean (map loss seed) in
        Ok (repeat nan n
              ++ momentum_index avg_gain avg_loss
              :: wilder (float_of_nat n) avg_gain avg_loss (skipn n ds))
  end.

(** [ema[t] = close[t]*alpha + ema[t-1]*(1 - alpha)] *)
Fixpoint ema_from (alpha prev : float) (l : list float) : list float :=
  match l with
  | [] => []
  | x :: l' =>
      let e := x * alpha + prev * (1 - alpha) in
      e :: ema_from alpha e l'
  end.

(** Modelled from the spec: [talib.EMA] belongs to the TA-Lib package, whose
    code is not part of the repository.  Section 4.2: smoothing factor
    [2/(timeperiod+1)], seeded by the simple average of the first
    [timeperiod] closes; the first [timeperiod - 1] positions are undefined. *)
Definition EMA (closes : list float) (timeperiod : Z) : result (list float) :=
  let n := Z.to_nat timeperiod in
  if (List.length closes <? n)%nat then Ok (repeat nan (List.length closes))
  else
    let alpha := 2 / (float_of_nat n + 1) in
    let seed := mean (firstn n closes) in
    Ok (repeat nan (n - 1) ++ seed :: ema_from alpha seed (skipn n closes)).

End SpecTalib.

(** ** A scripted venue, for running the pipeline on concrete inputs *)

Module Sim.

(** Scripted answers of the collaborators; the world itself has no state. *)
Record Script := {
  bars : string -> result BarsFrame;
  equity : result float;
  position : string -> result Position;
  order : MarketOrderRequest -> result string;
  metric : MetricDatum -> result unit
}.

Definition runtime (s : Script) (symbols : list string) (risk : float) (minutes : Z)
  : Runtime unit :=
  {| get_stock_bars := fun req w =>
       (w, match symbol_or_symbols req with
           | [sym] => bars s sym
           | _ => Raise "bad request"
           end);
     get_account := fun w => (w, equity s);
     get_position := fun sym w => (w, position s sym);
     submit_order := fun req w => (w, order s req);
     put_metric_data := fun _ d w => (w, metric s d);
     talib_RSI := SpecTalib.RSI;
     talib_EMA := SpecTalib.EMA;
     SYMBOLS := symbols;
     RISK_PCT := risk;
     MINUTES_HISTORY := minutes |}.

Definition init : state unit := {| world := tt; trace := [] |}.

(** Minute bars of one symbol with the given closes, oldest first. *)
Fixpoint bars_from (sym : string) (t : Z) (closes : list float) : list Bar :=
  match closes with
  | [] => []
  | c :: closes' =>
      {| bar_symbol := sym; bar_timestamp := t; bar_close := c |}
        :: bars_from sym (t + 1) closes'
  end.

Definition frame_of (sym : string) (closes : list float) : BarsFrame :=
  {| columns := ["open"; "high"; "low"; "close"; "volume"];
     rows := bars_from sym 0 closes |}.

(** Flat then dropping, flat then rising, and oscillating closing prices. *)
Definition falling : list float := repeat 10%float 17 ++ [8; 8; 8]%float.
Definition rising : list float := repeat 10%float 17 ++ [12; 12; 12]%float.
Definition choppy : list float :=
  [10; 11; 10; 11; 10; 11; 10; 11; 10; 11;
   10; 11; 10; 11; 10; 11; 10; 11; 10; 11]%float.

(** Market data: DOWN falls, UP rises, MID oscillates, SHORT has five bars,
    NONE has no bars, and the request for BAD fails. *)
Definition market (sym : string) : result BarsFrame :=
  if sym =? "DOWN" then Ok (frame_of sym falling)
  else if sym =? "UP" then Ok (frame_of sym rising)
  else if sym =? "MID" then Ok (frame_of sym choppy)
  else if sym =? "SHORT" then Ok (frame_of sym (firstn 5 choppy))
  else if sym =? "BAD" then Raise "data provider unavailable"
  else Ok empty_frame.

(** Everything answers: equity 100000, five shares held, orders accepted. *)
Definition healthy : Script :=
  {| bars := market;
     equity := Ok 100000%float;
     position := fun _ => Ok {| qty := 5%float; unrealized_pl := 1.5%float |};
     order := fun _ => Ok "order-1";
     metric := fun _ => Ok tt |}.

(** As [healthy], but nothing is held. *)
Definition flat_book : Script :=
  {| bars := market;
     equity := Ok 100000%float;
     position := fun _ => Raise "position does not exist";
     order := fun _ => Ok "order-1";
     metric := fun _ => Ok tt |}.

(** As [healthy], but the venue rejects every order. *)
Definition market_closed : Script :=
  {| bars := market;
     equity := Ok 100000%float;
     position := fun _ => Ok {| qty := 5%float; unrealized_pl := 1.5%float |};
     order := fun _ => Raise "market is closed";
     metric := fun _ => Ok tt |}.

(** As [healthy], but the metrics sink rejects every datum. *)
Definition sink_down : Script :=
  {| bars := market;
     equity := Ok 100000%float;
     position := fun _ => Ok {| qty := 5%float; unrealized_pl := 1.5%float |};
     order := fun _ => Ok "order-1";
     metric := fun _ => Raise "metrics sink unavailable" |}.

(** As [healthy], but the account cannot be read. *)
Definition account_down : Script :=
  {| bars := market;
     equity := Raise "account unavailable";
     position := fun _ => Ok {| qty := 5%float; unrealized_pl := 1.5%float |};
     order := fun _ => Ok "order-1";
     metric := fun _ => Ok tt |}.

(** As [healthy], but the sink rejects the metric called [name]. *)
Definition sink_rejects (name : string) : Script :=
  {| bars := market;
     equity := Ok 100000%float;
     position := fun _ => Ok {| qty := 5%float; unrealized_pl := 1.5%float |};
     order := fun _ => Ok "order-1";
     metric := fun d => if MetricName d =? name
                        then Raise "metrics sink unavailable" else Ok tt |}.

(** The bot configured with a quarter of equity per trade and 30 minutes. *)
Definition bot (s : Script) (symbols : list string) : Runtime unit :=
  runtime s symbols 0.25%float 30.

(** The indicator frame of a closing series, undefined rows dropped. *)
Definition table (closes : list float) : list IndicatorRow :=
  match compute_indicators (bot healthy []) closes with
  | Ok df => dropna df
  | Raise _ => []
  end.

Definition mid_last : IndicatorRow := Eval vm_compute in last (table choppy) nan_row.

(** The state after the bars of [sym] have been fetched from [init]. *)
Definition fetched (sym : string) : state unit :=
  fst (fetch_minute_bars (bot healthy []) sym 30 init).

(** The healthy bot with a window of [minutes]. *)
Definition windowed (minutes : Z) : Runtime unit :=
  runtime healthy [] 0.25%float minutes.

(** The frame a fetch returns from [init], or the empty frame. *)
Definition fetched_frame (rt : Runtime unit) (sym : string) : BarsFrame :=
  match snd (fetch_minute_bars rt sym (MINUTES_HISTORY rt) init) with
  | Ok df => df
  | Raise _ => empty_frame
  end.

(** The response of an invocation from [init], or an empty response. *)
Definition response (rt : Runtime unit) : Response :=
  match snd (lambda_handler rt init) with
  | Ok resp => resp
  | Raise _ => {| statusCode := 0; body := [] |}
  end.

(** As [healthy], but the provider's frames carry no close column. *)
Definition closeless : Script :=
  {| bars := fun sym => Ok {| columns := ["open"; "volume"];
                              rows := bars_from sym 0 choppy |};
     equity := Ok 100000%float;
     position := fun _ => Ok {| qty := 5%float; unrealized_pl := 1.5%float |};
     order := fun _ => Ok "order-1";
     metric := fun _ => Ok tt |}.

End Sim.

(** ** Vocabulary of the statements *)

Section Views.
Context {W : Type} (rt : Runtime W).
Local Open Scope py_scope.

(** The BUY branch of [evaluate_and_trade] (source lines 120-136). *)
Definition buy_branch (symbol : string) : M W record :=
  equity <- get_portfolio_equity rt ;;
  let notional := (equity * RISK_PCT rt)%float in
  order_id <- submit_market_notional_order rt symbol BUY notional ;;
  publish_metric rt "Equity" equity "Portfolio" ;;
  publish_metric rt "TradeNotional" notional symbol ;;
  publish_metric rt "BuySignal" 1%float symbol ;;
  ret [("symbol", VStr symbol);
       ("action", VStr "buy");
       ("order_id", VStr order_id);
       ("notional", VNum notional)].

(** The order a SELL submits for a held quantity. *)
Definition sell_order (symbol : string) (q : float) : MarketOrderRequest :=
  {| order_symbol := symbol;
     order_sizing := Qty q;
     order_side := SELL;
     time_in_force := DAY |}.

(** The SELL branch of [evaluate_and_trade] (source lines 142-167). *)
Definition sell_branch (symbol : string) : M W record :=
  try_except
    (pos <- perform (GetPosition symbol) (get_position rt symbol) ;;
     publish_metric rt "TradeQuantity" (qty pos) symbol ;;
     publish_metric rt "PnL" (unrealized_pl pos) symbol ;;
     order_id <- perform (SubmitOrder (sell_order symbol (qty pos)))
                         (submit_order rt (sell_order symbol (qty pos))) ;;
     publish_metric rt "SellSignal" 1%float symbol ;;
     ret [("symbol", VStr symbol);
          ("action", VStr "sell");
          ("order_id", VStr order_id);
          ("qty", VNum (qty pos))])
    (fun _ => ret [("symbol", VStr symbol); ("action", VStr "nothing_to_sell")]).

Definition no_signal_record (symbol : string) (last : IndicatorRow) : record :=
  [("symbol", VStr symbol);
   ("action", VStr "no_signal");
   ("rsi", VNum (rsi14 last));
   ("close", VNum (close last));
   ("ema9", VNum (ema9 last))].

(** [evaluate_and_trade] from the point where the last row is known
    (source lines 107-176). *)
Definition act_on_row (symbol : string) (last : IndicatorRow) : M W record :=
  publish_metric rt "RSI" (rsi14 last) symbol ;;
  publish_metric rt "EMA9" (ema9 last) symbol ;;
  publish_metric rt "Price" (close last) symbol ;;
  if ((rsi14 last <? 30) && (close last <? ema9 last))%float then buy_branch symbol
  else if ((rsi14 last >? 70) && (close last >? ema9 last))%float then sell_branch symbol
  else ret (no_signal_record symbol last).

(** The record the orchestrator stores when the pipeline of [sym] raises. *)
Definition error_record (sym msg : string) : record :=
  [("symbol", VStr sym); ("action", VStr "error"); ("error", VStr msg)].

(** What the orchestrator stores for the configured string [sym] when its
    pipeline runs from [st]: the pipeline's record, or an error record. *)
Definition slot_of (sym : string) (st : state W) : record :=
  match evaluate_and_trade rt (PyStr.upper (PyStr.strip sym)) st with
  | (_, Ok result) => result
  | (_, Raise msg) => error_record sym msg
  end.

(** The loop of [lambda_handler] over a list of configured strings. *)
Definition run_symbols (symbols : list string) : M W (list record) :=
  for_each symbols (process_symbol rt) [].

(** The frame is usable: not empty and holding a close column. *)
Definition usable (df_bars : BarsFrame) : Prop :=
  frame_empty df_bars || negb (has_column "close" df_bars) = false.

(** From [st], the pipeline of [symbol] fetches bars and reaches [st1] with
    [last] as the latest row in which close and both indicators are defined. *)
Definition latest_row (symbol : string) (st st1 : state W) (last : IndicatorRow) : Prop :=
  exists df_bars df earlier,
    fetch_minute_bars rt symbol (MINUTES_HISTORY rt) st = (st1, Ok df_bars) /\
    usable df_bars /\
    compute_indicators rt (map bar_close (rows df_bars)) = Ok df /\
    dropna df = earlier ++ [last].

(** TA-Lib's contract on the series [closes]: both routines return arrays of
    the input's length, and the first 14 entries of the RSI array are NaN. *)
Definition talib_lookback (closes : list float) : Prop :=
  exists rsi ema,
    talib_RSI rt closes 14 = Ok rsi /\
    List.length rsi = List.length closes /\
    Forall (fun x => is_nan x = true) (firstn 14 rsi) /\
    talib_EMA rt closes 9 = Ok ema /\
    List.length ema = List.length closes.

(** The collaborators answer every request. *)
Definition metrics_accepted : Prop :=
  forall ns d w, exists w', put_metric_data rt ns d w = (w', Ok tt).

Definition account_readable : Prop :=
  forall w, exists w' equity, get_account rt w = (w', Ok equity).

Definition orders_accepted : Prop :=
  forall req w, exists w' order_id, submit_order rt req w = (w', Ok order_id).

End Views.

(** Events of a trace. *)
Definition is_order (e : event) : bool :=
  match ev_call e with SubmitOrder _ => true | _ => false end.

Definition is_equity_read (e : event) : bool :=
  match ev_call e with GetAccount => true | _ => false end.

(** Number of order submissions, and of account reads, in a trace. *)
Definition orders_submitted (evs : list event) : nat :=
  List.length (filter is_order evs).

Definition equity_reads (evs : list event) : nat :=
  List.length (filter is_equity_read evs).

(** The action of a record, tested and counted. *)
Definition action_is (a : string) (r : record) : bool :=
  match action_of r with
  | Some (VStr s) => s =? a
  | _ => false
  end.

Definition count_action (a : string) (rs : list record) : nat :=
  List.length (filter (action_is a) rs).

Definition has_action (a : string) (r : record) : Prop :=
  action_of r = Some (VStr a).

(** Order by an integer key; bars in timestamp order. *)
Definition key_le {A} (key : A -> Z) (a b : A) : Prop := (key a <= key b)%Z.

Definition by_time : Bar -> Bar -> Prop := key_le bar_timestamp.

(** The bars of [symbol] in the frame the provider returned. *)
Definition bars_of (symbol : string) (df : BarsFrame) : list Bar :=
  filter (fun b => bar_symbol b =? symbol) (rows df).

(** The request [fetch_minute_bars] sends for [symbol] and [minutes]. *)
Definition bars_request (symbol : string) (minutes : Z) : StockBarsRequest :=
  {| symbol_or_symbols := [symbol]; lookback_minutes := minutes * 2 |}.

(** Calls to the brokerage, and the orders it accepted. *)
Definition is_brokerage (e : event) : bool :=
  match ev_call e with
  | GetAccount | GetPosition _ | SubmitOrder _ => true
  | _ => false
  end.

Definition is_position_lookup (e : event) : bool :=
  match ev_call e with GetPosition _ => true | _ => false end.

Definition accepted_orders (evs : list event) : list MarketOrderRequest :=
  flat_map (fun e => match ev_call e with
                     | SubmitOrder req => if ev_ok e then [req] else []
                     | _ => []
                     end) evs.

(** The market-data requests of a trace, in order. *)
Definition bars_requests (evs : list event) : list StockBarsRequest :=
  flat_map (fun e => match ev_call e with
                     | GetStockBars req => [req]
                     | _ => []
                     end) evs.

(** A row of the indicator frame from its three cells. *)
Definition indicator_rows (closes rsi ema : list float) : list IndicatorRow :=
  map (fun '(c, (r, e)) => {| close := c; rsi14 := r; ema9 := e |})
      (combine closes (combine rsi ema)).

(** No cell of the row is NaN. *)
Definition defined_row (row : IndicatorRow) : Prop :=
  is_nan (close row) = false /\ is_nan (rsi14 row) = false /\ is_nan (ema9 row) = false.

(** The datum [publish_metric] builds from its arguments. *)
Definition metric_datum (name : string) (v : float) (symbol : string) : MetricDatum :=
  {| MetricName := name;
     Dimensions := if PyStr.truthy symbol then [("Symbol", symbol)] else [];
     Value := v;
     Unit := "None" |}.

(** The names of the metrics the sink accepted, in order. *)
Definition metrics_published (evs : list event) : list string :=
  flat_map (fun e => match ev_call e with
                     | PutMetricData _ d => if ev_ok e then [MetricName d] else []
                     | _ => []
                     end) evs.

(** What "whitespace-trimmed and uppercased" means for an ASCII string,
    stated without [PyStr]: the blanks are the ASCII code points Python's
    [str.isspace] accepts, and a capital is read off the two alphabets. *)
Module SymbolSpec.

(** Every code point of the string is below 128. *)
Fixpoint is_ascii (s : string) : bool :=
  match s with
  | EmptyString => true
  | String c s' => (nat_of_ascii c <? 128)%nat && is_ascii s'
  end.

(** TAB, LF, VT, FF, CR, FS, GS, RS, US and SPACE. *)
Definition blank_codes : list nat := [9; 10; 11; 12; 13; 28; 29; 30; 31; 32]%nat.

Definition is_blank (c : ascii) : Prop := In (nat_of_ascii c) blank_codes.

Fixpoint all_blank (s : string) : Prop :=
  match s with
  | EmptyString => True
  | String c s' => is_blank c /\ all_blank s'
  end.

Fixpoint last_char (s : string) : option ascii :=
  match s with
  | EmptyString => None
  | String c s' =>
      match s' with
      | EmptyString => Some c
      | String _ _ => last_char s'
      end
  end.

(** The string neither starts nor ends with a blank. *)
Definition starts_clean (s : string) : Prop :=
  match s with
  | EmptyString => True
  | String c _ => ~ is_blank c
  end.

Definition ends_clean (s : string) : Prop :=
  match last_char s with
  | None => True
  | Some c => ~ is_blank c
  end.

Definition lower_letters : string := "abcdefghijklmnopqrstuvwxyz".
Definition upper_letters : string := "ABCDEFGHIJKLMNOPQRSTUVWXYZ".

(** The letter of [upper] at the place [c] has in [lower]; [c] itself when
    it is not in [lower]. *)
Fixpoint capital_in (lower upper : string) (c : ascii) : ascii :=
  match lower, upper with
  | String l lower', String u upper' =>
      if Ascii.eqb c l then u else capital_in lower' upper' c
  | _, _ => c
  end.

Definition capital (c : ascii) : ascii := capital_in lower_letters upper_letters c.

Fixpoint capitalized (s : string) : string :=
  match s with
  | EmptyString => EmptyString
  | String c s' => String (capital c) (capitalized s')
  end.

End SymbolSpec.

(** ** Order facts on binary64 comparisons *)

Module FloatOrder.
Local Open Scope float_scope.

Lemma SFcompare_antisym (x y : spec_float) :
  SFcompare y x = option_map CompOpp (SFcompare x y).
Proof.
  destruct x as [sx | sx | | sx mx ex], y as [sy | sy | | sy my ey]; simpl;
    try reflexivity;
    try (destruct sx; reflexivity);
    try (destruct sy; reflexivity);
    try (destruct sx, sy; reflexivity).
  destruct sx, sy; simpl; try reflexivity;
    rewrite (Z.compare_antisym ey ex);
    destruct (ey ?= ex)%Z; simpl; try reflexivity;
    fold (Pos.compare my mx); fold (Pos.compare mx my);
    rewrite (Pos.compare_antisym my mx);
    destruct (my ?= mx)%positive; reflexivity.
Qed.

Lemma SFcompare_Eq_inv (x y : spec_float) :
  SFcompare x y = Some Eq ->
  x = y \/ (exists sx sy, x = S754_zero sx /\ y = S754_zero sy).
Proof.
  destruct x as [sx | sx | | sx mx ex], y as [sy | sy | | sy my ey]; simpl;
    intros H; try discriminate;
    try (destruct sx; discriminate); try (destruct sy; discriminate).
  - right. eauto.
  - destruct sx, sy; try discriminate; left; reflexivity.
  - left.
    destruct sx, sy; try discriminate;
      destruct (ex ?= ey)%Z eqn:He; try discriminate;
      apply Z.compare_eq in He; subst ey;
      fold (Pos.compare mx my) in H;
      destruct (mx ?= my)%positive eqn:Hm; try discriminate;
      apply Pos.compare_eq in Hm; subst my; reflexivity.
Qed.

Lemma SFcompare_zero_r (z : spec_float) (s s' : bool) :
  SFcompare z (S754_zero s) = SFcompare z (S754_zero s').
Proof. destruct z; reflexivity. Qed.

(** [x < y] excludes [y < x]. *)
Lemma ltb_asym (x y : float) : (x <? y) = true -> (y <? x) = false.
Proof.
  rewrite !ltb_spec. unfold SFltb.
  rewrite (SFcompare_antisym (Prim2SF x) (Prim2SF y)).
  destruct (SFcompare (Prim2SF x) (Prim2SF y)) as [[]|]; simpl; congruence.
Qed.

(** [x == y] excludes [x < y] and [y < x]. *)
Lemma eqb_not_ltb (x y : float) :
  (x =? y) = true -> (x <? y) = false /\ (y <? x) = false.
Proof.
  rewrite FloatAxioms.eqb_spec, !ltb_spec. unfold SFeqb, SFltb.
  rewrite (SFcompare_antisym (Prim2SF x) (Prim2SF y)).
  destruct (SFcompare (Prim2SF x) (Prim2SF y)) as [[]|]; simpl; split; congruence.
Qed.

(** Floats that compare equal are indistinguishable to [<]. *)
Lemma SFcompare_Eq_r (x y z : spec_float) :
  SFcompare x y = Some Eq -> SFcompare z x = SFcompare z y.
Proof.
  intros H. apply SFcompare_Eq_inv in H.
  destruct H as [H | (sx & sy & Hx & Hy)].
  - rewrite H. reflexivity.
  - rewrite Hx, Hy. apply SFcompare_zero_r.
Qed.

Lemma eqb_ltb_r (x y z : float) : (x =? y) = true -> (z <? x) = (z <? y).
Proof.
  rewrite FloatAxioms.eqb_spec, !ltb_spec. unfold SFeqb, SFltb.
  destruct (SFcompare (Prim2SF x) (Prim2SF y)) as [[]|] eqn:H; try discriminate.
  intros _. rewrite (SFcompare_Eq_r _ _ (Prim2SF z) H). reflexivity.
Qed.

Lemma eqb_ltb_l (x y z : float) : (x =? y) = true -> (x <? z) = (y <? z).
Proof.
  rewrite FloatAxioms.eqb_spec, !ltb_spec. unfold SFeqb, SFltb.
  destruct (SFcompare (Prim2SF x) (Prim2SF y)) as [[]|] eqn:H; try discriminate.
  intros _.
  rewrite (SFcompare_antisym (Prim2SF z) (Prim2SF x)),
          (SFcompare_antisym (Prim2SF z) (Prim2SF y)),
          (SFcompare_Eq_r _ _ (Prim2SF z) H).
  reflexivity.
Qed.

End FloatOrder.

(** ** The monad and the helpers *)

Section Helpers.
Context {W : Type} (rt : Runtime W).

Lemma perform_eq {A} (c : call) (h : W -> W * result A) (st : state W) w' r :
  h (world st) = (w', r) ->
  perform c h st =
    ({| world := w'; trace := trace st ++ [{| ev_call := c; ev_ok := is_ok r |}] |}, r).
Proof. intros H. unfold perform. rewrite H. reflexivity. Qed.

Lemma publish_metric_eq name v symbol (st : state W) w' r :
  let datum := {| MetricName := name;
                  Dimensions := if PyStr.truthy symbol then [("Symbol", symbol)] else [];
                  Value := v;
                  Unit := "None" |} in
  put_metric_data rt "TradingBot" datum (world st) = (w', r) ->
  publish_metric rt name v symbol st =
    ({| world := w';
        trace := trace st ++ [{| ev_call := PutMetricData "TradingBot" datum;
                                 ev_ok := is_ok r |}] |}, r).
Proof.
  intros datum H. unfold publish_metric.
  destruct (PyStr.truthy symbol); simpl; apply perform_eq; exact H.
Qed.

Lemma publish_metric_ok name v symbol (st : state W) :
  metrics_accepted rt ->
  exists st', publish_metric rt name v symbol st = (st', Ok tt) /\
              exists e, trace st' = trace st ++ [e] /\
                        is_order e = false /\ is_equity_read e = false.
Proof.
  intros Hm. unfold publish_metric, perform.
  match goal with |- context [put_metric_data rt ?ns ?d ?w] =>
    destruct (Hm ns d w) as [w' Hw]; rewrite Hw end.
  eexists. split; [reflexivity|]. simpl. eexists. repeat split.
Qed.

(** [evaluate_and_trade] continues with [act_on_row] on the latest row. *)
Lemma evaluate_and_trade_on_row symbol (st st1 : state W) last :
  latest_row rt symbol st st1 last ->
  evaluate_and_trade rt symbol st = act_on_row rt symbol last st1.
Proof.
  intros (df_bars & df & earlier & Hf & Hu & Hc & Hd).
  unfold evaluate_and_trade, bind at 1. rewrite Hf.
  unfold usable in Hu. rewrite Hu.
  unfold bind at 1, lift. rewrite Hc, Hd.
  destruct (earlier ++ [last]) as [|r l] eqn:E.
  - destruct earlier; discriminate.
  - rewrite <- E, last_last. reflexivity.
Qed.

End Helpers.

(** ** The decision rule *)

Section Decision.
Context {W : Type} (rt : Runtime W).
Local Open Scope float_scope.

Ltac publish_step Hm :=
  match goal with
  | |- context [bind (publish_metric rt ?n ?v ?s) ?k ?st] =>
      let st' := fresh "st" in
      let E := fresh "E" in
      let T := fresh "T" in
      destruct (publish_metric_ok rt n v s st Hm) as (st' & E & T);
      unfold bind at 1; rewrite E
  end.

(** With every collaborator answering, the BUY branch ends in a buy record. *)
Lemma buy_branch_ok symbol (st : state W) :
  metrics_accepted rt -> account_readable rt -> orders_accepted rt ->
  exists st' r, buy_branch rt symbol st = (st', Ok r) /\ has_action "buy" r.
Proof.
  intros Hm Ha Ho. unfold buy_branch.
  destruct (Ha (world st)) as (w1 & equity & E1).
  unfold bind at 1, get_portfolio_equity. rewrite (perform_eq _ _ _ _ _ E1).
  unfold bind at 1, submit_market_notional_order.
  match goal with |- context [perform ?c (submit_order rt ?req) ?s] =>
    destruct (Ho req (world s)) as (w2 & oid & E2);
    rewrite (perform_eq c _ s _ _ E2) end.
  do 3 publish_step Hm.
  eexists. eexists. split; reflexivity.
Qed.

(** The SELL branch never raises: it ends in a sell record or in
    nothing_to_sell. *)
Lemma sell_branch_total symbol (st : state W) :
  exists st' r, sell_branch rt symbol st = (st', Ok r) /\
                (has_action "sell" r \/ has_action "nothing_to_sell" r).
Proof.
  unfold sell_branch, try_except.
  match goal with |- context [match ?m st with _ => _ end] =>
    destruct (m st) as [st' [r|msg]] eqn:E end.
  - exists st', r. split; [reflexivity|]. left.
    unfold bind in E.
    repeat match type of E with
           | context [match ?x with _ => _ end] => destruct x as [? [?|?]]; try discriminate
           end.
    inversion E. reflexivity.
  - eexists. eexists. split; [reflexivity|]. right. reflexivity.
Qed.

Lemma act_on_row_publishes symbol last (st : state W) :
  metrics_accepted rt ->
  exists st3,
    act_on_row rt symbol last st =
      (if (rsi14 last <? 30) && (close last <? ema9 last) then buy_branch rt symbol
       else if (rsi14 last >? 70) && (close last >? ema9 last) then sell_branch rt symbol
       else ret (no_signal_record symbol last)) st3.
Proof.
  intros Hm. unfold act_on_row.
  do 3 publish_step Hm. eexists. reflexivity.
Qed.

(** The three ways [evaluate_and_trade] ends on a defined row. *)
Lemma decision_cases symbol (st st1 : state W) last :
  latest_row rt symbol st st1 last ->
  metrics_accepted rt -> account_readable rt -> orders_accepted rt ->
  let buy := (rsi14 last <? 30) && (close last <? ema9 last) in
  let sell := (rsi14 last >? 70) && (close last >? ema9 last) in
  exists st' r,
    evaluate_and_trade rt symbol st = (st', Ok r) /\
    ((buy = true /\ has_action "buy" r) \/
     (buy = false /\ sell = true /\
        (has_action "sell" r \/ has_action "nothing_to_sell" r)) \/
     (buy = false /\ sell = false /\ r = no_signal_record symbol last)).
Proof.
  intros Hrow Hm Ha Ho buy sell.
  rewrite (evaluate_and_trade_on_row rt _ _ _ _ Hrow).
  destruct (act_on_row_publishes symbol last st1 Hm) as (st3 & ->).
  fold buy sell.
  destruct buy.
  - destruct (buy_branch_ok symbol st3 Hm Ha Ho) as (st' & r & E & Hr).
    exists st', r. auto.
  - destruct sell.
    + destruct (sell_branch_total symbol st3) as (st' & r & E & Hr).
      exists st', r. auto 6.
    + eexists. eexists. split; [reflexivity|]. auto 6.
Qed.

(** C1. For the latest fully-defined indicator row (close c, momentum index
    m, trend average e), with the brokerage and the metrics sink answering,
    the returned action is buy exactly when m < 30 and c < e; it is sell, or
    nothing_to_sell when nothing is held, exactly when m > 70 and c > e; it
    is the no_signal record otherwise.  The boundary rows m == 30, m == 70
    and c == e give no_signal: the inequalities are strict. *)
Theorem decision_rule symbol (st st1 : state W) last :
  latest_row rt symbol st st1 last ->
  metrics_accepted rt -> account_readable rt -> orders_accepted rt ->
  let m := rsi14 last in
  let c := close last in
  let e := ema9 last in
  exists st' r,
    evaluate_and_trade rt symbol st = (st', Ok r) /\
    (has_action "buy" r <-> (m <? 30) = true /\ (c <? e) = true) /\
    (has_action "sell" r \/ has_action "nothing_to_sell" r <->
       (m >? 70) = true /\ (c >? e) = true) /\
    (r = no_signal_record symbol last <->
       ~ ((m <? 30) = true /\ (c <? e) = true) /\
       ~ ((m >? 70) = true /\ (c >? e) = true)) /\
    ((m =? 30) = true \/ (m =? 70) = true \/ (c =? e) = true ->
       r = no_signal_record symbol last).
Proof.
  intros Hrow Hm Ha Ho m c e.
  destruct (decision_cases symbol st st1 last Hrow Hm Ha Ho) as (st' & r & E & Hcases).
  fold m c e in Hcases.
  exists st', r. split; [exact E|].
  assert (Hexcl : (c <? e) = true -> (e <? c) = false)
    by apply FloatOrder.ltb_asym.
  assert (Hb30 : (m =? 30) = true -> (m <? 30) = false /\ (70 <? m) = false).
  { intros H. split; [apply (FloatOrder.eqb_not_ltb _ _ H)|].
    rewrite (FloatOrder.eqb_ltb_r _ _ 70 H). reflexivity. }
  assert (Hb70 : (m =? 70) = true -> (m <? 30) = false /\ (70 <? m) = false).
  { intros H. split; [|apply (FloatOrder.eqb_not_ltb _ _ H)].
    rewrite (FloatOrder.eqb_ltb_l _ _ 30 H). reflexivity. }
  assert (Hbce : (c =? e) = true -> (c <? e) = false /\ (e <? c) = false)
    by apply FloatOrder.eqb_not_ltb.
  assert (Hns : has_action "no_signal" (no_signal_record symbol last))
    by reflexivity.
  assert (Hnot : forall x y : bool, x && y = false <-> ~ (x = true /\ y = true)).
  { intros [] []; simpl; intuition congruence. }
  rewrite !Hnot, !andb_true_iff in Hcases.
  unfold has_action in *. subst m c e.
  assert (Hact : forall a b : string,
             action_of r = Some (VStr a) -> action_of r = Some (VStr b) -> a = b)
    by (intros a b Ha' Hb'; congruence).
  refine (conj (conj _ _) (conj (conj _ _) (conj (conj _ _) _))).
  - intros H.
    destruct Hcases as [[Hb Hr] | [(Hb & Hs & [Hr|Hr]) | (Hb & Hs & Hr)]].
    + exact Hb.
    + discriminate (Hact _ _ H Hr).
    + discriminate (Hact _ _ H Hr).
    + subst r. discriminate (Hact _ _ H Hns).
  - intros H.
    destruct Hcases as [[Hb Hr] | [(Hb & Hs & _) | (Hb & Hs & _)]];
      [exact Hr | destruct (Hb H) | destruct (Hb H)].
  - intros H.
    destruct Hcases as [[Hb Hr] | [(Hb & Hs & _) | (Hb & Hs & Hr)]].
    + destruct H as [H|H]; discriminate (Hact _ _ H Hr).
    + exact Hs.
    + subst r. destruct H as [H|H]; discriminate (Hact _ _ H Hns).
  - intros [H7 H].
    destruct Hcases as [[Hb Hr] | [(Hb & Hs & Hr) | (Hb & Hs & _)]].
    + destruct Hb as [_ Hb]. apply Hexcl in Hb. congruence.
    + exact Hr.
    + destruct (Hs (conj H7 H)).
  - intros ->.
    destruct Hcases as [[Hb Hr] | [(Hb & Hs & [Hr|Hr]) | (Hb & Hs & _)]].
    + discriminate (Hact _ _ Hr Hns).
    + discriminate (Hact _ _ Hr Hns).
    + discriminate (Hact _ _ Hr Hns).
    + split; assumption.
  - intros [Hnb Hnsell].
    destruct Hcases as [[Hb _] | [(_ & Hs & _) | (_ & _ & Hr)]];
      [destruct (Hnb Hb) | destruct (Hnsell Hs) | exact Hr].
  - intros Hbnd.
    assert (Hfalse : (rsi14 last <? 30) && (close last <? ema9 last) = false /\
                     (70 <? rsi14 last) && (ema9 last <? close last) = false).
    { destruct Hbnd as [H|[H|H]];
        [apply Hb30 in H | apply Hb70 in H | apply Hbce in H];
        destruct H as [H1 H2]; rewrite H1, H2;
        split; rewrite ?andb_false_r; reflexivity. }
    rewrite !Hnot in Hfalse. destruct Hfalse as [Hnb Hnsell].
    destruct Hcases as [[Hb _] | [(_ & Hs & _) | (_ & _ & Hr)]];
      [destruct (Hnb Hb) | destruct (Hnsell Hs) | exact Hr].
Qed.

End Decision.

(** The scripted venue [Sim.healthy] answers every request. *)
Lemma healthy_metrics symbols : metrics_accepted (Sim.bot Sim.healthy symbols).
Proof. intros ns d []. exists tt. reflexivity. Qed.

Lemma healthy_account symbols : account_readable (Sim.bot Sim.healthy symbols).
Proof. intros []. exists tt, 100000%float. reflexivity. Qed.

Lemma healthy_orders symbols : orders_accepted (Sim.bot Sim.healthy symbols).
Proof. intros req []. exists tt, "order-1". reflexivity. Qed.

(** The oscillating series ends on the row [Sim.mid_last]. *)
Lemma mid_latest_row :
  latest_row (Sim.bot Sim.healthy []) "MID" Sim.init (Sim.fetched "MID") Sim.mid_last.
Proof.
  exists (Sim.frame_of "MID" Sim.choppy).
  exists (match compute_indicators (Sim.bot Sim.healthy []) Sim.choppy with
          | Ok df => df | Raise _ => [] end).
  exists (removelast (Sim.table Sim.choppy)).
  repeat split; vm_compute; reflexivity.
Qed.

Lemma decision_rule_witness :
  exists st' r,
    evaluate_and_trade (Sim.bot Sim.healthy []) "MID" Sim.init = (st', Ok r) /\
    r = no_signal_record "MID" Sim.mid_last.
Proof.
  destruct (decision_rule (Sim.bot Sim.healthy []) "MID" Sim.init
              (Sim.fetched "MID") Sim.mid_last
              mid_latest_row (healthy_metrics []) (healthy_account [])
              (healthy_orders []))
    as (st' & r & E & _ & _ & Hns & _).
  exists st', r. split; [exact E|]. apply Hns.
  split; intros [H1 H2]; vm_compute in H1; discriminate H1.
Defined.

(** ** Inversion of monadic runs *)

Section Inversion.
Context {W : Type} (rt : Runtime W).

Lemma bind_inv {A B} (m : M W A) (k : A -> M W B) (st st' : state W) r :
  bind m k st = (st', r) ->
  (exists st1 a, m st = (st1, Ok a) /\ k a st1 = (st', r)) \/
  (exists msg, m st = (st', Raise msg) /\ r = Raise msg).
Proof.
  unfold bind. destruct (m st) as [st1 [a|msg]]; intros H.
  - left. eauto.
  - right. inversion H; subst. eauto.
Qed.

Lemma try_except_inv {A} (m : M W A) (h : string -> M W A) (st st' : state W) r :
  try_except m h st = (st', r) ->
  (exists a, m st = (st', Ok a) /\ r = Ok a) \/
  (exists st1 msg, m st = (st1, Raise msg) /\ h msg st1 = (st', r)).
Proof.
  unfold try_except. destruct (m st) as [st1 [a|msg]]; intros H.
  - left. inversion H; subst. eauto.
  - right. eauto.
Qed.

Lemma ret_inv {A} (a : A) (st st' : state W) r :
  ret a st = (st', r) -> st' = st /\ r = Ok a.
Proof. unfold ret. intros H. inversion H. auto. Qed.

Lemma perform_inv {A} (c : call) (h : W -> W * result A) (st st' : state W) r :
  perform c h st = (st', r) ->
  trace st' = trace st ++ [{| ev_call := c; ev_ok := is_ok r |}] /\
  h (world st) = (world st', r).
Proof.
  unfold perform. destruct (h (world st)) as [w' r']. intros H.
  inversion H; subst. auto.
Qed.

Lemma publish_metric_inv name v symbol (st st' : state W) r :
  publish_metric rt name v symbol st = (st', r) ->
  exists d, MetricName d = name /\
    trace st' = trace st ++ [{| ev_call := PutMetricData "TradingBot" d; ev_ok := is_ok r |}].
Proof.
  unfold publish_metric. intros H. apply perform_inv in H.
  destruct H as [H _]. eexists. split; [|exact H]. reflexivity.
Qed.

(** A fetch performs exactly one call, the bars request, and raises exactly
    when that call does. *)
Lemma fetch_minute_bars_inv symbol minutes (st st' : state W) r :
  fetch_minute_bars rt symbol minutes st = (st', r) ->
  exists req, trace st' = trace st ++ [{| ev_call := GetStockBars req; ev_ok := is_ok r |}].
Proof.
  unfold fetch_minute_bars. intros H.
  apply bind_inv in H. destruct H as [(st1 & df & Hp & Hk) | (msg & Hp & ->)].
  - apply perform_inv in Hp. destruct Hp as [Hp _].
    assert (st' = st1 /\ is_ok r = true) as [-> Hr].
    { destruct (negb _) in Hk; apply ret_inv in Hk; destruct Hk; subst; auto. }
    rewrite Hr. eexists. exact Hp.
  - apply perform_inv in Hp. destruct Hp as [Hp _]. eexists. exact Hp.
Qed.

End Inversion.

(** ** Paths of the per-symbol pipeline *)

Ltac inv_leaf H :=
  lazymatch type of H with
  | publish_metric _ _ _ _ _ = _ =>
      apply publish_metric_inv in H; destruct H as (? & ? & H)
  | fetch_minute_bars _ _ _ _ = _ =>
      apply fetch_minute_bars_inv in H; destruct H as (? & H)
  | get_portfolio_equity _ _ = _ =>
      apply perform_inv in H; destruct H as [H ?]
  | submit_market_notional_order _ _ _ _ _ = _ =>
      apply perform_inv in H; destruct H as [H ?]
  | perform _ _ _ = _ =>
      apply perform_inv in H; destruct H as [H ?]
  | lift _ _ = _ =>
      unfold lift in H; inversion H; subst; clear H
  end.

Ltac inv_run H :=
  lazymatch type of H with
  | bind _ _ _ = _ =>
      let H1 := fresh "Hc" in
      let Hr := fresh "Hr" in
      apply bind_inv in H;
      destruct H as [(? & ? & H1 & H) | (? & H1 & Hr)];
      [ inv_leaf H1; inv_run H
      | try (inversion Hr; clear Hr); subst; inv_leaf H1 ]
  | (if ?c then _ else _) _ = _ =>
      destruct c eqn:?; inv_run H
  | match ?l with [] => _ | _ :: _ => _ end _ = _ =>
      destruct l eqn:?; inv_run H
  | ret _ _ = _ =>
      let Hr := fresh "Hr" in
      apply ret_inv in H; destruct H as [? Hr];
      try discriminate Hr; try (inversion Hr; clear Hr); subst
  | try_except _ _ _ = _ =>
      let H1 := fresh "Hc" in
      let Hr := fresh "Hr" in
      apply try_except_inv in H;
      destruct H as [(? & H & Hr) | (? & ? & H1 & H)];
      [ try (inversion Hr; clear Hr); subst; inv_run H
      | inv_run H1; inv_run H ]
  | _ => inv_leaf H
  end.

(** Rewrite the trace of every intermediate state down to the initial one. *)
Ltac flatten_traces :=
  repeat match goal with
         | H : trace ?s = trace _ ++ _ |- _ =>
             try rewrite H in *; clear H
         end;
  repeat rewrite <- app_assoc in *; simpl app in *.


Section Paths.
Context {W : Type} (rt : Runtime W).

(** Split [evaluate_and_trade] into its paths, each with its events. *)
Ltac paths H Ht :=
  unfold evaluate_and_trade in H; revert Ht; inv_run H; flatten_traces;
  intros Ht; apply app_inv_head in Ht; subst.

(** Decide membership of an event in an explicit list of events. *)
Ltac scan Hin :=
  simpl in Hin;
  repeat (destruct Hin as [Hin|Hin]; [try discriminate Hin|]);
  try contradiction.

(** C8. For every symbol and every behaviour of the collaborators: when the
    pipeline attempts a SELL and the position lookup raises, as it does when
    no position is open, the pipeline returns the nothing_to_sell record
    (it does not raise) and its trace holds no order submission. *)
Theorem sell_without_position symbol (st st' : state W) r evs :
  evaluate_and_trade rt symbol st = (st', r) ->
  trace st' = trace st ++ evs ->
  In {| ev_call := GetPosition symbol; ev_ok := false |} evs ->
  r = Ok [("symbol", VStr symbol); ("action", VStr "nothing_to_sell")] /\
  orders_submitted evs = 0%nat.
Proof.
  intros H Ht Hin. paths H Ht; scan Hin.
  split; reflexivity.
Qed.

(** A rejected sell order ends in nothing_to_sell, in every world: the
    handler written for a missing position also catches the rejection. *)
Lemma sell_rejection_swallowed symbol (st st' : state W) r evs req :
  evaluate_and_trade rt symbol st = (st', r) ->
  trace st' = trace st ++ evs ->
  In {| ev_call := SubmitOrder req; ev_ok := false |} evs ->
  order_side req = SELL ->
  r = Ok [("symbol", VStr symbol); ("action", VStr "nothing_to_sell")].
Proof.
  intros H Ht Hin Hside. paths H Ht; scan Hin.
  - inversion Hin; subst req. discriminate Hside.
  - reflexivity.
Qed.

(** A rejected buy order raises, in every world. *)
Lemma buy_rejection_raises symbol (st st' : state W) r evs req :
  evaluate_and_trade rt symbol st = (st', r) ->
  trace st' = trace st ++ evs ->
  In {| ev_call := SubmitOrder req; ev_ok := false |} evs ->
  order_side req = BUY ->
  exists msg, r = Raise msg.
Proof.
  intros H Ht Hin Hside. paths H Ht; scan Hin.
  - eexists. reflexivity.
  - inversion Hin; subst req. discriminate Hside.
Qed.

(** C4, as the code has it. A failed publish is never absorbed by
    [publish_metric]: it is the last call the pipeline makes, and, unless the
    pipeline had already looked a position up (the SELL branch), the
    pipeline raises, which the orchestrator records as the symbol's error. *)
Theorem publish_failure_propagates symbol (st st' : state W) r evs ns d :
  evaluate_and_trade rt symbol st = (st', r) ->
  trace st' = trace st ++ evs ->
  In {| ev_call := PutMetricData ns d; ev_ok := false |} evs ->
  (exists earlier, evs = earlier ++ [{| ev_call := PutMetricData ns d; ev_ok := false |}]) /\
  ((forall ok, ~ In {| ev_call := GetPosition symbol; ev_ok := ok |} evs) ->
   exists msg, r = Raise msg).
Proof.
  intros H Ht Hin. paths H Ht; scan Hin.
  all: rewrite <- Hin.
  all: split; [ eexists; 
     match goal with |- ?l = _ => 
       let l' := eval simpl in (removelast l) in
       instantiate (1 := l') end; reflexivity | ].
  all: try (intros _; eexists; reflexivity).
  all: intros Hno; exfalso; eapply Hno; simpl; eauto 10.
Qed.

(** Equity reads of one pipeline, against its outcome. *)
Lemma equity_reads_per_pipeline symbol (st st' : state W) r evs :
  evaluate_and_trade rt symbol st = (st', r) ->
  trace st' = trace st ++ evs ->
  (equity_reads evs <= 1)%nat /\
  (forall result, r = Ok result ->
     (has_action "buy" result /\ equity_reads evs = 1%nat) \/
     (~ has_action "buy" result /\ equity_reads evs = 0%nat)).
Proof.
  intros H Ht. paths H Ht.
  all: unfold equity_reads, has_action; simpl.
  all: split; [lia|].
  all: intros result Hr; inversion Hr; subst.
  all: try (left; split; reflexivity).
  all: right; split; [intros Hb; discriminate Hb | reflexivity].
Qed.

End Paths.

(** ** Short histories *)

Section ShortSeries.
Context {W : Type} (rt : Runtime W).

(** Rows whose momentum index is NaN do not survive [dropna]. *)
Lemma dropna_undefined_rsi (closes rsi ema : list float) :
  Forall (fun x => is_nan x = true) rsi ->
  dropna (map (fun '(c, (r, e)) => {| close := c; rsi14 := r; ema9 := e |})
              (combine closes (combine rsi ema))) = [].
Proof.
  intros Hnan. revert rsi ema Hnan.
  induction closes as [|c closes IH]; intros rsi ema Hnan; [reflexivity|].
  destruct rsi as [|r rsi]; [reflexivity|].
  destruct ema as [|e ema]; [reflexivity|].
  inversion Hnan as [|? ? Hr Hrest]; subst.
  simpl. rewrite Hr, orb_true_r. simpl. apply IH. exact Hrest.
Qed.

(** A series shorter than 15 leaves no defined row. *)
Lemma no_defined_row (closes : list float) :
  (List.length closes < 15)%nat ->
  talib_lookback rt closes ->
  exists df, compute_indicators rt closes = Ok df /\ dropna df = [].
Proof.
  intros Hlen (rsi & ema & Hrsi & Lrsi & Hnan & Hema & Lema).
  unfold compute_indicators, assign_column.
  rewrite Hrsi, Lrsi, Nat.eqb_refl, Hema, Lema, Nat.eqb_refl.
  eexists. split; [reflexivity|].
  apply dropna_undefined_rsi.
  rewrite firstn_all2 in Hnan by lia. exact Hnan.
Qed.

(** A frame is usable exactly when it has rows and a close column. *)
Lemma usable_iff (df_bars : BarsFrame) :
  usable df_bars <-> rows df_bars <> [] /\ has_column "close" df_bars = true.
Proof.
  unfold usable, frame_empty, has_column.
  remember (existsb (String.eqb "close") (columns df_bars)) as h eqn:Hh.
  destruct (columns df_bars) as [|c cs].
  - cbn [existsb] in Hh. subst h. cbn.
    split; [discriminate | intros [_ H]; discriminate H].
  - clear Hh. destruct (rows df_bars) as [|b bs], h; cbn;
      split; try discriminate; try (intros [H1 H2]; congruence);
      intros _; split; [discriminate | reflexivity].
Qed.

(** C5, as the code has it. After a successful fetch: a frame that is not
    usable (it has no rows or no close column), whatever its length, gives
    no_data; a usable frame with fewer than 15 closes gives
    insufficient_data, TA-Lib leaving the first 14 momentum values
    undefined.  In both cases the evaluation ends in the state the fetch
    left: the only call made is the bars request, so no order is submitted
    and the outcome is neither buy nor sell. *)
Theorem short_series symbol (st st1 : state W) df_bars :
  fetch_minute_bars rt symbol (MINUTES_HISTORY rt) st = (st1, Ok df_bars) ->
  (usable df_bars <-> rows df_bars <> [] /\ has_column "close" df_bars = true) /\
  (~ usable df_bars ->
   evaluate_and_trade rt symbol st =
     (st1, Ok [("symbol", VStr symbol); ("action", VStr "no_data")])) /\
  (usable df_bars ->
   (List.length (rows df_bars) < 15)%nat ->
   talib_lookback rt (map bar_close (rows df_bars)) ->
   evaluate_and_trade rt symbol st =
     (st1, Ok [("symbol", VStr symbol); ("action", VStr "insufficient_data")])) /\
  (exists req, trace st1 = trace st ++ [{| ev_call := GetStockBars req; ev_ok := true |}]) /\
  orders_submitted (trace st1) = orders_submitted (trace st).
Proof.
  intros Hf.
  assert (Htr : exists req,
             trace st1 = trace st ++ [{| ev_call := GetStockBars req; ev_ok := true |}]).
  { apply fetch_minute_bars_inv in Hf. exact Hf. }
  assert (Hord : orders_submitted (trace st1) = orders_submitted (trace st)).
  { destruct Htr as (req & ->). unfold orders_submitted.
    rewrite filter_app, length_app. simpl. lia. }
  refine (conj (usable_iff df_bars) (conj _ (conj _ (conj Htr Hord)))); unfold usable.
  - intros Hu. apply not_false_is_true in Hu.
    unfold evaluate_and_trade. unfold bind at 1. rewrite Hf, Hu. reflexivity.
  - intros Hu Hlen Htalib.
    unfold evaluate_and_trade. unfold bind at 1. rewrite Hf, Hu.
    rewrite <- (length_map bar_close) in Hlen.
    destruct (no_defined_row _ Hlen Htalib) as (df & Hc & Hd).
    unfold bind, lift. rewrite Hc, Hd. reflexivity.
Qed.

End ShortSeries.

(** The indicator model leaves the first 14 momentum values undefined. *)
Lemma diffs_length (prev : float) (l : list float) :
  List.length (SpecTalib.diffs prev l) = List.length l.
Proof.
  revert prev. induction l as [|x l IH]; intros prev; simpl; [reflexivity|].
  rewrite IH. reflexivity.
Qed.

Lemma spec_rsi_short (closes : list float) :
  (List.length closes < 15)%nat ->
  SpecTalib.RSI closes 14 = Ok (repeat nan (List.length closes)).
Proof.
  intros Hlen. unfold SpecTalib.RSI.
  destruct closes as [|c0 rest]; [reflexivity|].
  rewrite diffs_length. simpl in Hlen.
  replace (List.length rest <? Z.to_nat 14)%nat with true; [reflexivity|].
  symmetry. apply Nat.ltb_lt. change (Z.to_nat 14) with 14%nat. lia.
Qed.

Lemma ema_from_length (alpha prev : float) (l : list float) :
  List.length (SpecTalib.ema_from alpha prev l) = List.length l.
Proof.
  revert prev. induction l as [|x l IH]; intros prev; simpl; [reflexivity|].
  rewrite IH. reflexivity.
Qed.

Lemma spec_ema_length (closes : list float) :
  exists ema, SpecTalib.EMA closes 9 = Ok ema /\ List.length ema = List.length closes.
Proof.
  unfold SpecTalib.EMA. change (Z.to_nat 9) with 9%nat.
  destruct (List.length closes <? 9)%nat eqn:E.
  - eexists. split; [reflexivity|]. apply repeat_length.
  - apply Nat.ltb_ge in E. eexists. split; [reflexivity|].
    rewrite length_app, repeat_length. cbn [List.length].
    rewrite ema_from_length, length_skipn. lia.
Qed.

Lemma spec_talib_lookback (s : Sim.Script) symbols (closes : list float) :
  (List.length closes < 15)%nat ->
  talib_lookback (Sim.bot s symbols) closes.
Proof.
  intros Hlen. destruct (spec_ema_length closes) as (ema & He & Le).
  exists (repeat nan (List.length closes)), ema.
  split; [apply spec_rsi_short; exact Hlen|].
  split; [apply repeat_length|].
  split; [|split; assumption].
  apply Forall_forall. intros x Hx.
  apply (In_nth _ _ nan) in Hx. destruct Hx as (i & _ & <-).
  clear. revert i. generalize 14%nat.
  induction (List.length closes) as [|n IH]; intros k i.
  - destruct k, i; reflexivity.
  - destruct k; [destruct i; reflexivity|].
    destruct i; [reflexivity|]. simpl. apply IH.
Qed.

Lemma short_series_witness :
  evaluate_and_trade (Sim.bot Sim.healthy []) "SHORT" Sim.init =
    (Sim.fetched "SHORT",
     Ok [("symbol", VStr "SHORT"); ("action", VStr "insufficient_data")]) /\
  snd (evaluate_and_trade (Sim.bot Sim.closeless []) "MID" Sim.init) =
    Ok [("symbol", VStr "MID"); ("action", VStr "no_data")].
Proof.
  split.
  - destruct (short_series (Sim.bot Sim.healthy []) "SHORT" Sim.init
                (Sim.fetched "SHORT") (Sim.frame_of "SHORT" (firstn 5 Sim.choppy)))
      as (_ & _ & Hins & _).
    + vm_compute. reflexivity.
    + apply Hins.
      * reflexivity.
      * simpl. lia.
      * apply spec_talib_lookback. simpl. lia.
  - destruct (short_series (Sim.bot Sim.closeless []) "MID" Sim.init
                (fst (fetch_minute_bars (Sim.bot Sim.closeless []) "MID" 30 Sim.init))
                {| columns := ["open"; "volume"];
                   rows := Sim.bars_from "MID" 0 Sim.choppy |})
      as (_ & Hno & _).
    + vm_compute. reflexivity.
    + rewrite Hno; [reflexivity|]. intros Hu. discriminate Hu.
Defined.

(** C5 as worded fails on a symbol without bars: zero closes are fewer than
    15, yet the evaluation returns no_data, not insufficient_data. *)
Lemma short_series_counterexample :
  exists st1 df_bars,
    fetch_minute_bars (Sim.bot Sim.healthy []) "NONE" 30 Sim.init = (st1, Ok df_bars) /\
    (List.length (rows df_bars) < 15)%nat /\
    evaluate_and_trade (Sim.bot Sim.healthy []) "NONE" Sim.init =
      (st1, Ok [("symbol", VStr "NONE"); ("action", VStr "no_data")]) /\
    ~ has_action "insufficient_data" [("symbol", VStr "NONE"); ("action", VStr "no_data")].
Proof.
  exists (Sim.fetched "NONE"), empty_frame.
  split; [vm_compute; reflexivity|].
  split; [simpl; lia|].
  split; [vm_compute; reflexivity|].
  intros H. discriminate H.
Qed.

(** ** Trimming and uppercasing against their description *)

Section SymbolFacts.
Import SymbolSpec.

Lemma isspace_blank (c : ascii) : PyStr.isspace c = true <-> is_blank c.
Proof.
  unfold PyStr.isspace, is_blank, blank_codes. cbv zeta.
  generalize (nat_of_ascii c). intros n.
  rewrite orb_true_iff, !andb_true_iff, !Nat.leb_le. simpl. lia.
Qed.

Lemma isspace_not_blank (c : ascii) : PyStr.isspace c = false -> ~ is_blank c.
Proof.
  intros H Hb. apply isspace_blank in Hb. congruence.
Qed.

Lemma toupper_capital (c : ascii) : PyStr.toupper c = capital c.
Proof. destruct c as [[] [] [] [] [] [] [] []]; reflexivity. Qed.

Lemma upper_capitalized (s : string) : PyStr.upper s = capitalized s.
Proof.
  induction s as [|c s IH]; simpl; [reflexivity|].
  rewrite toupper_capital, IH. reflexivity.
Qed.

(** What [lstrip] removes is blank, and what it leaves starts clean. *)
Lemma lstrip_split (s : string) :
  exists lead,
    s = (lead ++ PyStr.lstrip s)%string /\
    all_blank lead /\ starts_clean (PyStr.lstrip s).
Proof.
  induction s as [|c s IH].
  - exists EmptyString. repeat split.
  - simpl. destruct (PyStr.isspace c) eqn:E.
    + destruct IH as (lead & Hs & Hb & Hc).
      exists (String c lead). simpl. rewrite <- Hs.
      split; [reflexivity|]. split; [|exact Hc].
      split; [apply isspace_blank; exact E | exact Hb].
    + exists EmptyString. split; [reflexivity|]. split; [exact I|].
      simpl. apply isspace_not_blank. exact E.
Qed.

(** What [rstrip] removes is blank, what it leaves ends clean, and it does
    not touch a clean start. *)
Lemma rstrip_split (s : string) :
  exists tail,
    s = (PyStr.rstrip s ++ tail)%string /\
    all_blank tail /\ ends_clean (PyStr.rstrip s) /\
    (starts_clean s -> starts_clean (PyStr.rstrip s)).
Proof.
  induction s as [|c s IH].
  - exists EmptyString. repeat split.
  - destruct IH as (tail & Hs & Hb & He & _). simpl.
    destruct (PyStr.isspace c) eqn:E; simpl.
    + destruct (PyStr.rstrip s) as [|r0 r] eqn:R; simpl.
      * exists (String c s). split; [reflexivity|].
        simpl in Hs. subst tail.
        split; [split; [apply isspace_blank; exact E | exact Hb]|].
        split; [exact I|]. intros _. exact I.
      * exists tail. simpl in Hs. rewrite Hs at 1.
        split; [reflexivity|]. split; [exact Hb|].
        split; [exact He|]. simpl. intros H. exact H.
    + exists tail. rewrite Hs at 1. split; [reflexivity|]. split; [exact Hb|].
      split; [|simpl; intros H; exact H].
      unfold ends_clean in *. simpl.
      destruct (PyStr.rstrip s) as [|r0 r]; [|exact He].
      apply isspace_not_blank. exact E.
Qed.

(** [strip] splits a string into blanks, a core clean at both ends, and
    blanks. *)
Lemma strip_split (s : string) :
  exists lead tail,
    s = (lead ++ PyStr.strip s ++ tail)%string /\
    all_blank lead /\ all_blank tail /\
    starts_clean (PyStr.strip s) /\ ends_clean (PyStr.strip s).
Proof.
  unfold PyStr.strip.
  destruct (lstrip_split s) as (lead & Hs & Hl & Hc).
  destruct (rstrip_split (PyStr.lstrip s)) as (tail & Ht & Hb & He & Hk).
  exists lead, tail. split; [rewrite <- Ht; exact Hs|].
  repeat split; auto.
Qed.

(** Trimming and uppercasing at work on blanks of several kinds at both
    ends; inner blanks and characters that are not letters stay. *)
Lemma normalization_examples :
  PyStr.upper (PyStr.strip "msft ") = "MSFT" /\
  PyStr.upper (PyStr.strip (String "009" " goog" ++ String "013" (String "010" ""))) = "GOOG" /\
  PyStr.upper (PyStr.strip "  brk.b  ") = "BRK.B" /\
  PyStr.upper (PyStr.strip " a b ") = "A B" /\
  PyStr.upper (PyStr.strip "   ") = "" /\
  PyStr.upper (PyStr.strip "Spy1{`") = "SPY1{`".
Proof. repeat split; reflexivity. Qed.

End SymbolFacts.

(** ** The orchestrator *)

Section Orchestrator.
Context {W : Type} (rt : Runtime W).

(** One turn of the loop never raises: it appends the slot of its symbol. *)
Lemma process_symbol_eq results sym (st : state W) :
  process_symbol rt results sym st =
    (fst (evaluate_and_trade rt (PyStr.upper (PyStr.strip sym)) st),
     Ok (results ++ [slot_of rt sym st])).
Proof.
  unfold process_symbol, try_except, bind, slot_of, ret, error_record.
  destruct (evaluate_and_trade rt (PyStr.upper (PyStr.strip sym)) st) as [st1 [r|msg]];
    reflexivity.
Qed.

(** The loop from any accumulator: one slot per symbol, in order, each
    computed from the state its predecessors left. *)
Lemma for_each_symbols (symbols : list string) :
  forall acc (st : state W),
  exists st' out,
    for_each symbols (process_symbol rt) acc st = (st', Ok (acc ++ out)) /\
    List.length out = List.length symbols /\
    forall i sym,
      nth_error symbols i = Some sym ->
      nth_error out i =
        Some (slot_of rt sym
                (fst (for_each (firstn i symbols) (process_symbol rt) acc st))).
Proof.
  induction symbols as [|s rest IH]; intros acc st.
  - exists st, []. rewrite app_nil_r. split; [reflexivity|]. split; [reflexivity|].
    intros [|i] sym H; discriminate H.
  - simpl. unfold bind at 1. rewrite process_symbol_eq. simpl.
    destruct (IH (acc ++ [slot_of rt s st])
                 (fst (evaluate_and_trade rt (PyStr.upper (PyStr.strip s)) st)))
      as (st' & out & E & L & Hslots).
    exists st', (slot_of rt s st :: out).
    split; [rewrite E, <- app_assoc; reflexivity|].
    split; [simpl; rewrite L; reflexivity|].
    intros [|i] sym H.
    + simpl in H. inversion H; subst. reflexivity.
    + simpl in H. simpl. unfold bind at 1. rewrite process_symbol_eq. simpl.
      apply Hslots. exact H.
Qed.

Lemma run_symbols_spec (symbols : list string) (st : state W) :
  exists st' results,
    run_symbols rt symbols st = (st', Ok results) /\
    List.length results = List.length symbols /\
    forall i sym,
      nth_error symbols i = Some sym ->
      nth_error results i =
        Some (slot_of rt sym (fst (run_symbols rt (firstn i symbols) st))).
Proof.
  destruct (for_each_symbols symbols [] st) as (st' & out & E & L & H).
  exists st', out. auto.
Qed.

(** Once equity is read and published, the handler is its loop. *)
Lemma lambda_handler_after_preamble (st st1 st2 : state W) equity st' results :
  get_portfolio_equity rt st = (st1, Ok equity) ->
  publish_metric rt "Equity" equity "Portfolio" st1 = (st2, Ok tt) ->
  run_symbols rt (SYMBOLS rt) st2 = (st', Ok results) ->
  lambda_handler rt st = (st', Ok {| statusCode := 200; body := results |}).
Proof.
  intros H1 H2 H3. unfold lambda_handler.
  unfold bind at 1. rewrite H1.
  unfold bind at 1. rewrite H2.
  unfold bind at 1. unfold run_symbols in H3. rewrite H3. reflexivity.
Qed.

(** C7. For every list of n configured symbols, once the handler has read
    and published equity, it returns a list of exactly n records in input
    order: slot i holds the record the pipeline of symbol i returned, or,
    when that pipeline raised, the record with the symbol, action error and
    the message; the pipelines of the remaining symbols still run, each from
    the state its predecessors left. *)
Theorem failure_isolation (st st1 st2 : state W) equity :
  get_portfolio_equity rt st = (st1, Ok equity) ->
  publish_metric rt "Equity" equity "Portfolio" st1 = (st2, Ok tt) ->
  exists st' results,
    lambda_handler rt st = (st', Ok {| statusCode := 200; body := results |}) /\
    List.length results = List.length (SYMBOLS rt) /\
    forall i sym,
      nth_error (SYMBOLS rt) i = Some sym ->
      match evaluate_and_trade rt (PyStr.upper (PyStr.strip sym))
              (fst (run_symbols rt (firstn i (SYMBOLS rt)) st2)) with
      | (_, Ok result) => nth_error results i = Some result
      | (_, Raise msg) =>
          nth_error results i =
            Some [("symbol", VStr sym); ("action", VStr "error"); ("error", VStr msg)]
      end.
Proof.
  intros H1 H2.
  destruct (run_symbols_spec (SYMBOLS rt) st2) as (st' & results & E & L & Hslots).
  exists st', results.
  split; [exact (lambda_handler_after_preamble _ _ _ _ _ _ H1 H2 E)|].
  split; [exact L|].
  intros i sym Hi. specialize (Hslots i sym Hi). unfold slot_of in Hslots.
  destruct (evaluate_and_trade rt (PyStr.upper (PyStr.strip sym))
              (fst (run_symbols rt (firstn i (SYMBOLS rt)) st2))) as [s [r|msg]];
    exact Hslots.
Qed.

(** Slots given index by index are slots given pairwise. *)
Lemma slots_pairwise (symbols : list string) :
  forall (results : list record) (f : nat -> state W),
    List.length results = List.length symbols ->
    (forall i sym, nth_error symbols i = Some sym ->
                   nth_error results i = Some (slot_of rt sym (f i))) ->
    Forall2 (fun sym r =>
               exists s s',
                 evaluate_and_trade rt (PyStr.upper (PyStr.strip sym)) s = (s', Ok r) \/
                 exists msg,
                   evaluate_and_trade rt (PyStr.upper (PyStr.strip sym)) s = (s', Raise msg) /\
                   r = error_record sym msg)
            symbols results.
Proof.
  induction symbols as [|sym rest IH]; intros results f L Hslots.
  - destruct results; [constructor | discriminate L].
  - destruct results as [|r results]; [discriminate L|].
    constructor.
    + pose proof (Hslots 0%nat sym eq_refl) as H0. simpl in H0.
      inversion H0 as [Hr]. exists (f 0%nat). unfold slot_of.
      destruct (evaluate_and_trade rt (PyStr.upper (PyStr.strip sym)) (f 0%nat))
        as [s' [x|msg]]; exists s'; [left; reflexivity | right; eauto].
    + apply (IH results (fun i => f (S i))).
      * simpl in L. lia.
      * intros i sym' Hi. exact (Hslots (S i) sym' Hi).
Qed.

(** C3, as the code has it. When the initial equity read raises, or the
    publication of the portfolio equity metric raises, the invocation raises
    with that exception.  Otherwise it does not raise, whatever the external
    calls do afterwards: it returns status code 200 with a body holding
    exactly one record per configured symbol, each being the record that
    symbol's pipeline returned or the error record of the exception it
    raised. *)
Theorem invocation_boundary (st : state W) :
  match get_portfolio_equity rt st with
  | (st1, Raise msg) => lambda_handler rt st = (st1, Raise msg)
  | (st1, Ok equity) =>
      match publish_metric rt "Equity" equity "Portfolio" st1 with
      | (st2, Raise msg) => lambda_handler rt st = (st2, Raise msg)
      | (st2, Ok _) =>
          exists st' resp,
            lambda_handler rt st = (st', Ok resp) /\
            statusCode resp = 200%Z /\
            List.length (body resp) = List.length (SYMBOLS rt) /\
            Forall2 (fun sym r =>
               exists s s',
                 evaluate_and_trade rt (PyStr.upper (PyStr.strip sym)) s = (s', Ok r) \/
                 exists msg,
                   evaluate_and_trade rt (PyStr.upper (PyStr.strip sym)) s = (s', Raise msg) /\
                   r = error_record sym msg)
              (SYMBOLS rt) (body resp)
      end
  end.
Proof.
  destruct (get_portfolio_equity rt st) as [st1 [equity|msg]] eqn:H1.
  - destruct (publish_metric rt "Equity" equity "Portfolio" st1) as [st2 [[]|msg]] eqn:H2.
    + destruct (run_symbols_spec (SYMBOLS rt) st2) as (st' & results & E & L & Hslots).
      exists st', {| statusCode := 200; body := results |}.
      split; [exact (lambda_handler_after_preamble _ _ _ _ _ _ H1 H2 E)|].
      split; [reflexivity|]. split; [exact L|]. simpl.
      exact (slots_pairwise _ _ _ L Hslots).
    + unfold lambda_handler. unfold bind at 1. rewrite H1.
      unfold bind at 1. rewrite H2. reflexivity.
  - unfold lambda_handler. unfold bind at 1. rewrite H1. reflexivity.
Qed.

(** A record returned by the pipeline carries the symbol it was run with. *)
Lemma pipeline_symbol symbol (st st' : state W) result :
  evaluate_and_trade rt symbol st = (st', Ok result) ->
  symbol_of result = Some (VStr symbol).
Proof.
  intros H. unfold evaluate_and_trade in H. inv_run H; reflexivity.
Qed.

(** C10. For every configured ASCII string s, split as blanks, a core that
    neither starts nor ends with a blank, and blanks: when the pipeline
    returns, the stored record carries the normalized symbol, the core in
    capitals (s whitespace-trimmed at both ends and uppercased); when the
    pipeline raises, the stored error record carries s itself, untrimmed and
    in its original case.  The two differ for strings such as " aapl" and
    "aapl ". *)
Theorem symbol_field_of_slot sym results (st : state W) :
  SymbolSpec.is_ascii sym = true ->
  (exists lead core tail,
     sym = (lead ++ core ++ tail)%string /\
     SymbolSpec.all_blank lead /\ SymbolSpec.all_blank tail /\
     SymbolSpec.starts_clean core /\ SymbolSpec.ends_clean core /\
     PyStr.upper (PyStr.strip sym) = SymbolSpec.capitalized core /\
     match evaluate_and_trade rt (PyStr.upper (PyStr.strip sym)) st with
     | (st', Ok result) =>
         process_symbol rt results sym st = (st', Ok (results ++ [result])) /\
         symbol_of result = Some (VStr (SymbolSpec.capitalized core))
     | (st', Raise msg) =>
         exists r,
           process_symbol rt results sym st = (st', Ok (results ++ [r])) /\
           has_action "error" r /\
           symbol_of r = Some (VStr sym)
     end) /\
  PyStr.upper (PyStr.strip " aapl") = "AAPL" /\
  PyStr.upper (PyStr.strip " aapl") <> " aapl" /\
  PyStr.upper (PyStr.strip "aapl ") = "AAPL" /\
  PyStr.upper (PyStr.strip "aapl ") <> "aapl ".
Proof.
  intros _.
  split; [|repeat split; first [reflexivity | discriminate]].
  destruct (strip_split sym) as (lead & tail & Hs & Hl & Ht & Hc & He).
  exists lead, (PyStr.strip sym), tail.
  repeat (split; [assumption|]).
  split; [apply upper_capitalized|].
  rewrite process_symbol_eq. unfold slot_of.
  destruct (evaluate_and_trade rt (PyStr.upper (PyStr.strip sym)) st)
    as [st' [result|msg]] eqn:E; simpl.
  - split; [reflexivity|]. rewrite <- upper_capitalized.
    exact (pipeline_symbol _ _ _ _ E).
  - eexists. split; [reflexivity|]. split; reflexivity.
Qed.

(** The pipeline only appends to the trace. *)
Lemma evaluate_and_trade_extends symbol (st st' : state W) r :
  evaluate_and_trade rt symbol st = (st', r) ->
  exists evs, trace st' = trace st ++ evs.
Proof.
  intros H. unfold evaluate_and_trade in H. inv_run H; flatten_traces;
    eexists; reflexivity.
Qed.

Lemma equity_reads_app (evs evs' : list event) :
  equity_reads (evs ++ evs') = (equity_reads evs + equity_reads evs')%nat.
Proof. unfold equity_reads. rewrite filter_app, length_app. reflexivity. Qed.

Lemma count_action_app a (rs rs' : list record) :
  count_action a (rs ++ rs') = (count_action a rs + count_action a rs')%nat.
Proof. unfold count_action. rewrite filter_app, length_app. reflexivity. Qed.

Lemma action_is_iff a (r : record) : action_is a r = true <-> has_action a r.
Proof.
  unfold action_is, has_action.
  destruct (action_of r) as [[s|x]|]; split; intros H; try discriminate H.
  - apply String.eqb_eq in H. subst. reflexivity.
  - inversion H. apply String.eqb_refl.
Qed.

(** Equity reads of one turn of the loop, against the record it stores. *)
Lemma slot_equity sym (st : state W) :
  exists evs,
    trace (fst (evaluate_and_trade rt (PyStr.upper (PyStr.strip sym)) st))
      = trace st ++ evs /\
    (count_action "buy" [slot_of rt sym st] <= equity_reads evs)%nat /\
    (equity_reads evs <=
       count_action "buy" [slot_of rt sym st]
       + count_action "error" [slot_of rt sym st])%nat.
Proof.
  unfold slot_of.
  destruct (evaluate_and_trade rt (PyStr.upper (PyStr.strip sym)) st)
    as [st1 r] eqn:E.
  destruct (evaluate_and_trade_extends _ _ _ _ E) as (evs & Ht).
  exists evs. split; [exact Ht|].
  destruct (equity_reads_per_pipeline rt _ _ _ _ _ E Ht) as (Hle & Hok).
  destruct r as [result|msg].
  - unfold count_action. simpl.
    destruct (Hok result eq_refl) as [[Hb ->] | [Hb ->]].
    + apply action_is_iff in Hb. rewrite Hb. simpl. lia.
    + destruct (action_is "buy" result) eqn:Eb.
      * apply action_is_iff in Eb. destruct (Hb Eb).
      * simpl. lia.
  - unfold count_action. simpl. lia.
Qed.

(** Equity reads of the whole loop, against the records it stores. *)
Lemma for_each_equity (symbols : list string) :
  forall acc (st : state W),
  exists st' out evs,
    for_each symbols (process_symbol rt) acc st = (st', Ok (acc ++ out)) /\
    trace st' = trace st ++ evs /\
    (count_action "buy" out <= equity_reads evs)%nat /\
    (equity_reads evs <= count_action "buy" out + count_action "error" out)%nat.
Proof.
  induction symbols as [|s rest IH]; intros acc st.
  - exists st, [], []. rewrite !app_nil_r. repeat split; simpl; auto.
  - simpl. unfold bind at 1. rewrite process_symbol_eq. simpl.
    destruct (slot_equity s st) as (evs1 & T1 & Lo1 & Hi1).
    destruct (IH (acc ++ [slot_of rt s st])
                 (fst (evaluate_and_trade rt (PyStr.upper (PyStr.strip s)) st)))
      as (st' & out & evs2 & E & T2 & Lo2 & Hi2).
    exists st', (slot_of rt s st :: out), (evs1 ++ evs2).
    split; [rewrite E, <- app_assoc; reflexivity|].
    split; [rewrite T2, T1, app_assoc; reflexivity|].
    rewrite equity_reads_app.
    change (slot_of rt s st :: out) with ([slot_of rt s st] ++ out).
    rewrite !count_action_app. lia.
Qed.

(** C6, as the code has it. Within one invocation the first external call
    is the account-equity read, made before any per-symbol work.  Equity is
    read again inside the per-symbol pipelines that take the BUY branch:
    when the invocation completes, the number of reads is at least one plus
    the number of buy records, and at most that plus the number of error
    records. *)
Theorem equity_read_points (st st' : state W) r evs :
  lambda_handler rt st = (st', r) ->
  trace st' = trace st ++ evs ->
  (exists ok rest, evs = {| ev_call := GetAccount; ev_ok := ok |} :: rest) /\
  (forall resp, r = Ok resp ->
     (1 + count_action "buy" (body resp) <= equity_reads evs)%nat /\
     (equity_reads evs <=
        1 + count_action "buy" (body resp) + count_action "error" (body resp))%nat).
Proof.
  intros H Ht. unfold lambda_handler in H.
  apply bind_inv in H. destruct H as [(st1 & equity & H1 & H) | (msg & H1 & ->)].
  2: { apply perform_inv in H1. destruct H1 as [T1 _]. rewrite T1 in Ht.
       apply app_inv_head in Ht. subst evs.
       split; [eexists; eexists; reflexivity | discriminate]. }
  apply perform_inv in H1. destruct H1 as [T1 _]. simpl in T1.
  apply bind_inv in H. destruct H as [(st2 & [] & H2 & H) | (msg & H2 & ->)].
  2: { apply publish_metric_inv in H2. destruct H2 as (d & _ & T2).
       rewrite T2, T1, <- app_assoc in Ht. apply app_inv_head in Ht. subst evs.
       split; [eexists; eexists; reflexivity | discriminate]. }
  apply publish_metric_inv in H2. destruct H2 as (d & _ & T2). simpl in T2.
  destruct (for_each_equity (SYMBOLS rt) [] st2)
    as (st'' & out & evs3 & E & T3 & Lo & Hi).
  apply bind_inv in H. destruct H as [(st3 & results & H3 & H) | (msg & H3 & ->)].
  2: { rewrite H3 in E. discriminate E. }
  apply ret_inv in H. destruct H as [-> ->].
  rewrite H3 in E. inversion E; subst st'' results. clear E.
  rewrite T3, T2, T1, <- !app_assoc in Ht. simpl in Ht.
  apply app_inv_head in Ht. subst evs.
  split; [eexists; eexists; reflexivity|].
  intros resp Hr. inversion Hr; subst resp. simpl.
  change ({| ev_call := GetAccount; ev_ok := true |}
            :: {| ev_call := PutMetricData "TradingBot" d; ev_ok := true |} :: evs3)
    with ([{| ev_call := GetAccount; ev_ok := true |};
           {| ev_call := PutMetricData "TradingBot" d; ev_ok := true |}] ++ evs3).
  rewrite equity_reads_app. unfold equity_reads at 1 3. simpl. lia.
Qed.

End Orchestrator.

(** ** The statements on the scripted venue *)

Lemma sell_without_position_witness :
  snd (evaluate_and_trade (Sim.bot Sim.flat_book []) "UP" Sim.init) =
    Ok [("symbol", VStr "UP"); ("action", VStr "nothing_to_sell")] /\
  orders_submitted
    (trace (fst (evaluate_and_trade (Sim.bot Sim.flat_book []) "UP" Sim.init))) = 0%nat.
Proof.
  apply (sell_without_position (Sim.bot Sim.flat_book []) "UP" Sim.init
           (fst (evaluate_and_trade (Sim.bot Sim.flat_book []) "UP" Sim.init))).
  - apply surjective_pairing.
  - reflexivity.
  - vm_compute. do 4 right. left. reflexivity.
Defined.

(** C2 (defect in the code). Five shares of UP are held, the signal is SELL
    and the venue rejects the sell order: the pipeline returns the
    nothing_to_sell record, and the invocation returns status 200 with that
    record, so the rejection is not reported as an execution error.  The
    same rejection of a buy order (symbol DOWN) raises and is recorded as an
    error. *)
Theorem sell_rejection_not_reported :
  exists st',
    evaluate_and_trade (Sim.bot Sim.market_closed []) "UP" Sim.init =
      (st', Ok [("symbol", VStr "UP"); ("action", VStr "nothing_to_sell")]) /\
    In {| ev_call := GetPosition "UP"; ev_ok := true |} (trace st') /\
    In {| ev_call := SubmitOrder (sell_order "UP" 5%float); ev_ok := false |} (trace st') /\
    snd (lambda_handler (Sim.bot Sim.market_closed ["UP"; "DOWN"]) Sim.init) =
      Ok {| statusCode := 200;
            body := [[("symbol", VStr "UP"); ("action", VStr "nothing_to_sell")];
                     error_record "DOWN" "market is closed"] |}.
Proof.
  eexists. split; [vm_compute; reflexivity|].
  split; [vm_compute; do 4 right; left; reflexivity|].
  split; [vm_compute; do 7 right; left; reflexivity|].
  vm_compute. reflexivity.
Qed.

Lemma publish_failure_propagates_witness :
  exists msg,
    snd (evaluate_and_trade (Sim.bot (Sim.sink_rejects "RSI") []) "MID" Sim.init)
      = Raise msg.
Proof.
  refine (proj2 (publish_failure_propagates (Sim.bot (Sim.sink_rejects "RSI") []) "MID"
                   Sim.init
                   (fst (evaluate_and_trade (Sim.bot (Sim.sink_rejects "RSI") [])
                           "MID" Sim.init))
                   _ _ "TradingBot"
                   {| MetricName := "RSI";
                      Dimensions := [("Symbol", "MID")];
                      Value := rsi14 Sim.mid_last;
                      Unit := "None" |} _ _ _) _).
  - apply surjective_pairing.
  - reflexivity.
  - vm_compute. right. left. reflexivity.
  - intros ok Hin. vm_compute in Hin.
    destruct Hin as [Hin|[Hin|[]]]; discriminate Hin.
Defined.

(** C4 as worded fails: with the sink rejecting the RSI metric, MID is
    recorded as an error instead of no_signal; with the sink rejecting the
    TradeQuantity metric, the sell order for UP is never submitted. *)
Lemma publish_failure_counterexample :
  snd (lambda_handler (Sim.bot Sim.healthy ["MID"]) Sim.init) =
    Ok {| statusCode := 200; body := [no_signal_record "MID" Sim.mid_last] |} /\
  snd (lambda_handler (Sim.bot (Sim.sink_rejects "RSI") ["MID"]) Sim.init) =
    Ok {| statusCode := 200;
          body := [error_record "MID" "metrics sink unavailable"] |} /\
  orders_submitted
    (trace (fst (lambda_handler (Sim.bot Sim.healthy ["UP"]) Sim.init))) = 1%nat /\
  orders_submitted
    (trace (fst (lambda_handler (Sim.bot (Sim.sink_rejects "TradeQuantity") ["UP"])
                   Sim.init))) = 0%nat.
Proof. repeat split; vm_compute; reflexivity. Qed.

(** The preamble of the handler on the healthy venue. *)
Lemma healthy_preamble symbols :
  get_portfolio_equity (Sim.bot Sim.healthy symbols) Sim.init =
    (fst (get_portfolio_equity (Sim.bot Sim.healthy symbols) Sim.init), Ok 100000%float) /\
  publish_metric (Sim.bot Sim.healthy symbols) "Equity" 100000%float "Portfolio"
    (fst (get_portfolio_equity (Sim.bot Sim.healthy symbols) Sim.init)) =
    (fst (publish_metric (Sim.bot Sim.healthy symbols) "Equity" 100000%float "Portfolio"
            (fst (get_portfolio_equity (Sim.bot Sim.healthy symbols) Sim.init))), Ok tt).
Proof. split; reflexivity. Qed.

Lemma failure_isolation_witness :
  exists st' results,
    lambda_handler (Sim.bot Sim.healthy [" down"; "BAD"; "mid "]) Sim.init =
      (st', Ok {| statusCode := 200; body := results |}) /\
    List.length results = 3%nat /\
    nth_error results 0 =
      Some [("symbol", VStr "DOWN"); ("action", VStr "buy");
            ("order_id", VStr "order-1"); ("notional", VNum 25000%float)] /\
    nth_error results 1 = Some (error_record "BAD" "data provider unavailable") /\
    nth_error results 2 = Some (no_signal_record "MID" Sim.mid_last).
Proof.
  destruct (healthy_preamble [" down"; "BAD"; "mid "]) as [H1 H2].
  destruct (failure_isolation (Sim.bot Sim.healthy [" down"; "BAD"; "mid "])
              Sim.init _ _ _ H1 H2) as (st' & results & E & L & Hslots).
  exists st', results. split; [exact E|]. split; [exact L|].
  pose proof (Hslots 0%nat " down" eq_refl) as S0.
  pose proof (Hslots 1%nat "BAD" eq_refl) as S1.
  pose proof (Hslots 2%nat "mid " eq_refl) as S2.
  vm_compute in S0, S1, S2. repeat split; assumption.
Defined.

Lemma invocation_boundary_witness :
  exists st' resp,
    lambda_handler (Sim.bot Sim.market_closed ["UP"; "BAD"; "DOWN"]) Sim.init =
      (st', Ok resp) /\
    statusCode resp = 200%Z /\
    List.length (body resp) = 3%nat.
Proof.
  pose proof (invocation_boundary (Sim.bot Sim.market_closed ["UP"; "BAD"; "DOWN"])
                Sim.init) as H.
  vm_compute get_portfolio_equity in H. cbv iota beta in H.
  vm_compute publish_metric in H. cbv iota beta in H.
  destruct H as (st' & resp & E & Hc & L & _).
  exists st', resp. auto.
Defined.

(** C3 as worded fails: when the account cannot be read, or the portfolio
    equity metric cannot be published, the invocation raises; no status
    code and no per-symbol record is returned. *)
Lemma invocation_boundary_counterexample :
  snd (lambda_handler (Sim.bot Sim.account_down ["DOWN"; "UP"]) Sim.init) =
    Raise "account unavailable" /\
  snd (lambda_handler (Sim.bot Sim.sink_down ["DOWN"; "UP"]) Sim.init) =
    Raise "metrics sink unavailable".
Proof. split; vm_compute; reflexivity. Qed.

Lemma equity_read_points_witness :
  (1 + 1 <=
   equity_reads
     (trace (fst (lambda_handler (Sim.bot Sim.healthy ["DOWN"; "MID"]) Sim.init))))%nat.
Proof.
  refine (proj1 (proj2 (equity_read_points (Sim.bot Sim.healthy ["DOWN"; "MID"]) Sim.init
                   (fst (lambda_handler (Sim.bot Sim.healthy ["DOWN"; "MID"]) Sim.init))
                   _ _ _ _)
                   {| statusCode := 200;
                      body := [[("symbol", VStr "DOWN"); ("action", VStr "buy");
                                ("order_id", VStr "order-1");
                                ("notional", VNum 25000%float)];
                               no_signal_record "MID" Sim.mid_last] |} _)).
  - apply surjective_pairing.
  - reflexivity.
  - vm_compute. reflexivity.
Defined.

(** C6 as worded fails: one invocation over the single symbol DOWN, which
    signals BUY, reads account equity twice, the second time inside the
    pipeline of DOWN. *)
Lemma equity_read_points_counterexample :
  equity_reads
    (trace (fst (lambda_handler (Sim.bot Sim.healthy ["DOWN"]) Sim.init))) = 2%nat /\
  equity_reads
    (trace (fst (evaluate_and_trade (Sim.bot Sim.healthy ["DOWN"]) "DOWN" Sim.init)))
    = 1%nat.
Proof. split; vm_compute; reflexivity. Qed.

(** ** The bars window *)

Section SortedWindow.
Context {A : Type} (key : A -> Z).

Lemma insert_by_perm (x : A) (l : list A) :
  Permutation (PySeq.insert_by key x l) (x :: l).
Proof.
  induction l as [|y l IH]; simpl; [reflexivity|].
  destruct (key x <? key y)%Z; [reflexivity|].
  rewrite IH. apply perm_swap.
Qed.

Lemma insert_by_sorted (x : A) (l : list A) :
  StronglySorted (key_le key) l -> StronglySorted (key_le key) (PySeq.insert_by key x l).
Proof.
  induction l as [|y l IH]; intros Hs; simpl.
  - constructor; constructor.
  - inversion Hs as [|? ? Hl Hy]; subst.
    destruct (key x <? key y)%Z eqn:E.
    + apply Z.ltb_lt in E. constructor; [exact Hs|].
      constructor; [unfold key_le; lia|].
      eapply Forall_impl; [|exact Hy]. unfold key_le. intros a Ha. lia.
    + apply Z.ltb_ge in E. constructor; [apply IH; exact Hl|].
      eapply Permutation_Forall; [symmetry; apply insert_by_perm|].
      constructor; [exact E | exact Hy].
Qed.

Lemma sort_by_from (l acc : list A) :
  StronglySorted (key_le key) acc ->
  StronglySorted (key_le key) (fold_left (fun acc x => PySeq.insert_by key x acc) l acc) /\
  Permutation (fold_left (fun acc x => PySeq.insert_by key x acc) l acc) (l ++ acc).
Proof.
  revert acc. induction l as [|x l IH]; intros acc Hs; simpl.
  - split; [exact Hs | reflexivity].
  - destruct (IH _ (insert_by_sorted x acc Hs)) as [S P].
    split; [exact S|]. rewrite P, insert_by_perm. symmetry. apply Permutation_middle.
Qed.

Lemma sort_by_sorted (l : list A) : StronglySorted (key_le key) (PySeq.sort_by key l).
Proof. apply sort_by_from. constructor. Qed.

Lemma sort_by_perm (l : list A) : Permutation (PySeq.sort_by key l) l.
Proof.
  destruct (sort_by_from l [] (SSorted_nil _)) as [_ P].
  unfold PySeq.sort_by. rewrite P, app_nil_r. reflexivity.
Qed.

Lemma sorted_app_inv (l1 l2 : list A) :
  StronglySorted (key_le key) (l1 ++ l2) ->
  StronglySorted (key_le key) l2 /\ forall a b, In a l1 -> In b l2 -> key_le key a b.
Proof.
  induction l1 as [|x l1 IH]; simpl; intros Hs.
  - split; [exact Hs | intros a b []].
  - inversion Hs as [|? ? Hl Hx]; subst.
    destruct (IH Hl) as [S2 Hc]. split; [exact S2|].
    intros a b [<-|Ha] Hb.
    + rewrite Forall_forall in Hx. apply Hx. apply in_or_app. right. exact Hb.
    + apply Hc; assumption.
Qed.

End SortedWindow.

(** [l[-m:]] of a list longer than [m > 0] is its last [m] elements, and
    [l[-0:]] is the whole list. *)
Lemma slice_from_last {A} (m : Z) (l : list A) :
  (0 < m < Z.of_nat (List.length l))%Z ->
  PySeq.slice_from (- m) l = skipn (List.length l - Z.to_nat m) l.
Proof.
  intros Hm. unfold PySeq.slice_from.
  replace (- m <? 0)%Z with true by (symmetry; apply Z.ltb_lt; lia).
  f_equal. lia.
Qed.

Lemma slice_from_zero {A} (l : list A) : PySeq.slice_from (- 0) l = l.
Proof. unfold PySeq.slice_from. simpl. destruct l; reflexivity. Qed.

Section Window.
Context {W : Type} (rt : Runtime W).

(** What a successful fetch returns, from the frame the provider sent. *)
Lemma fetch_minute_bars_rows symbol minutes (st st' : state W) df w' src :
  get_stock_bars rt (bars_request symbol minutes) (world st) = (w', Ok src) ->
  fetch_minute_bars rt symbol minutes st = (st', Ok df) ->
  let sorted := PySeq.sort_by bar_timestamp (bars_of symbol src) in
  (bars_of symbol src = [] /\ df = empty_frame) \/
  (bars_of symbol src <> [] /\
   df = {| columns := columns src;
           rows := if (Z.of_nat (List.length sorted) >? minutes)%Z
                   then PySeq.slice_from (- minutes) sorted else sorted |}).
Proof.
  intros Hsrc H. unfold fetch_minute_bars in H. fold (bars_request symbol minutes) in H.
  unfold bind in H. rewrite (perform_eq _ _ _ _ _ Hsrc) in H.
  fold (bars_of symbol src) in H.
  destruct (existsb (fun b => bar_symbol b =? symbol) (rows src)) eqn:E; simpl in H.
  - right. split.
    + apply existsb_exists in E. destruct E as (b & Hb & Hs).
      intros Hnil. assert (Hin : In b (bars_of symbol src)).
      { apply filter_In. auto. }
      rewrite Hnil in Hin. destruct Hin.
    + unfold ret in H. inversion H. reflexivity.
  - left. split.
    + unfold bars_of. induction (rows src) as [|b l IH]; [reflexivity|].
      simpl in E. apply orb_false_iff in E. destruct E as [E1 E2].
      simpl. rewrite E1. apply IH. exact E2.
    + unfold ret in H. inversion H. reflexivity.
Qed.

(** X1. With a positive window, a successful fetch returns exactly
    min(n, minutes) rows, n being the number of bars the provider sent for
    the symbol: never more than the window. *)
Theorem fetch_window symbol minutes (st st' : state W) df w' src :
  get_stock_bars rt (bars_request symbol minutes) (world st) = (w', Ok src) ->
  fetch_minute_bars rt symbol minutes st = (st', Ok df) ->
  (0 < minutes)%Z ->
  List.length (rows df) = Nat.min (List.length (bars_of symbol src)) (Z.to_nat minutes).
Proof.
  intros Hsrc H Hpos.
  destruct (fetch_minute_bars_rows _ _ _ _ _ _ _ Hsrc H) as [[Hnil ->] | [_ ->]].
  - rewrite Hnil. reflexivity.
  - simpl.
    pose proof (Permutation_length (sort_by_perm bar_timestamp (bars_of symbol src))) as L.
    destruct (Z.of_nat _ >? minutes)%Z eqn:E.
    + apply Z.gtb_lt in E. rewrite slice_from_last by lia.
      rewrite length_skipn. lia.
    + rewrite Z.gtb_ltb in E. apply Z.ltb_ge in E. lia.
Qed.

(** X2. The rows a successful fetch returns are bars of the requested
    symbol, in ascending timestamp order, and they are the most recent ones:
    together with the bars left out they are exactly the symbol's bars in
    the provider's frame, and no bar left out is later than a returned
    one. *)
Theorem fetch_keeps_latest symbol minutes (st st' : state W) df w' src :
  get_stock_bars rt (bars_request symbol minutes) (world st) = (w', Ok src) ->
  fetch_minute_bars rt symbol minutes st = (st', Ok df) ->
  Forall (fun b => bar_symbol b = symbol) (rows df) /\
  StronglySorted by_time (rows df) /\
  exists older,
    Permutation (older ++ rows df) (bars_of symbol src) /\
    forall a b, In a older -> In b (rows df) -> by_time a b.
Proof.
  intros Hsrc H.
  assert (Hmine : Forall (fun b => bar_symbol b = symbol) (bars_of symbol src)).
  { apply Forall_forall. intros b Hb. apply filter_In in Hb.
    apply String.eqb_eq. apply Hb. }
  pose proof (sort_by_perm bar_timestamp (bars_of symbol src)) as P.
  pose proof (sort_by_sorted bar_timestamp (bars_of symbol src)) as S.
  assert (Hkey : exists older,
             PySeq.sort_by bar_timestamp (bars_of symbol src) = older ++ rows df).
  { destruct (fetch_minute_bars_rows _ _ _ _ _ _ _ Hsrc H) as [[Hnil ->] | [_ ->]].
    - exists []. rewrite Hnil. reflexivity.
    - simpl. destruct (Z.of_nat _ >? minutes)%Z.
      + unfold PySeq.slice_from. eexists. symmetry. apply firstn_skipn.
      + exists []. reflexivity. }
  destruct Hkey as (older & Hk). rewrite Hk in P, S.
  destruct (sorted_app_inv bar_timestamp _ _ S) as [S2 Hc].
  split.
  - apply (Permutation_Forall (Permutation_sym P)) in Hmine.
    apply Forall_app in Hmine. apply Hmine.
  - split; [exact S2|]. exists older. split; [exact P | exact Hc].
Qed.

(** X3. With a window of zero minutes nothing is cut: the slice [-0:] is the
    whole frame, so every bar of the symbol is returned. *)
Theorem fetch_zero_window symbol (st st' : state W) df w' src :
  get_stock_bars rt (bars_request symbol 0) (world st) = (w', Ok src) ->
  fetch_minute_bars rt symbol 0 st = (st', Ok df) ->
  Permutation (rows df) (bars_of symbol src).
Proof.
  intros Hsrc H.
  destruct (fetch_minute_bars_rows _ _ _ _ _ _ _ Hsrc H) as [[Hnil ->] | [_ ->]].
  - rewrite Hnil. reflexivity.
  - simpl. change (- 0)%Z with 0%Z.
    destruct (Z.of_nat _ >? 0)%Z.
    + rewrite (slice_from_zero _). apply sort_by_perm.
    + apply sort_by_perm.
Qed.

End Window.

(** ** What one pipeline does to the brokerage *)

Ltac split_paths H Ht :=
  unfold evaluate_and_trade in H; revert Ht; inv_run H; flatten_traces;
  intros Ht; apply app_inv_head in Ht; subst.

Ltac scan_events Hin :=
  simpl in Hin;
  repeat (destruct Hin as [Hin|Hin]; [try discriminate Hin|]);
  try contradiction.

Section Brokerage.
Context {W : Type} (rt : Runtime W).

(** X4. A pipeline submits at most one order, whatever the collaborators
    answer. *)
Theorem one_order_at_most symbol (st st' : state W) r evs :
  evaluate_and_trade rt symbol st = (st', r) ->
  trace st' = trace st ++ evs ->
  (orders_submitted evs <= 1)%nat.
Proof.
  intros H Ht. split_paths H Ht; unfold orders_submitted; simpl; lia.
Qed.

(** X5. A pipeline that ends in no_data, insufficient_data or no_signal has
    made no call to the brokerage: no account read, no position lookup, no
    order. *)
Theorem quiet_outcomes symbol (st st' : state W) result evs :
  evaluate_and_trade rt symbol st = (st', Ok result) ->
  trace st' = trace st ++ evs ->
  has_action "no_data" result \/ has_action "insufficient_data" result \/
    has_action "no_signal" result ->
  filter is_brokerage evs = [].
Proof.
  intros H Ht Ha. split_paths H Ht; try reflexivity;
    destruct Ha as [Ha|[Ha|Ha]]; discriminate Ha.
Qed.

(** X6. The brokerage is only called once the bars were fetched and the
    three indicator metrics RSI, EMA9 and Price were published, in that
    order and all successfully. *)
Theorem brokerage_after_snapshot symbol (st st' : state W) r evs e :
  evaluate_and_trade rt symbol st = (st', r) ->
  trace st' = trace st ++ evs ->
  In e evs -> is_brokerage e = true ->
  exists req d1 d2 d3 rest,
    evs = {| ev_call := GetStockBars req; ev_ok := true |}
            :: {| ev_call := PutMetricData "TradingBot" d1; ev_ok := true |}
            :: {| ev_call := PutMetricData "TradingBot" d2; ev_ok := true |}
            :: {| ev_call := PutMetricData "TradingBot" d3; ev_ok := true |}
            :: rest /\
    MetricName d1 = "RSI" /\ MetricName d2 = "EMA9" /\ MetricName d3 = "Price" /\
    In e rest.
Proof.
  intros H Ht Hin Hb. split_paths H Ht.
  all: simpl in Hin.
  all: repeat (destruct Hin as [Hin|Hin]; [subst e; try discriminate Hb|]);
    try contradiction.
  all: do 5 eexists; split; [reflexivity|]; repeat split; simpl; auto 10.
Qed.

(** X7. A buy record reports the order that was placed: exactly one order
    was accepted, a BUY for the symbol by notional value for the trading
    day, its notional is an equity value the account read returned times
    RISK_PCT, and the record carries that notional. *)
Theorem buy_record_matches_order symbol (st st' : state W) result evs :
  evaluate_and_trade rt symbol st = (st', Ok result) ->
  trace st' = trace st ++ evs ->
  has_action "buy" result ->
  exists w w' equity order_id,
    get_account rt w = (w', Ok equity) /\
    accepted_orders evs =
      [{| order_symbol := symbol;
          order_sizing := Notional (equity * RISK_PCT rt);
          order_side := BUY;
          time_in_force := DAY |}] /\
    orders_submitted evs = 1%nat /\
    result = [("symbol", VStr symbol); ("action", VStr "buy");
              ("order_id", VStr order_id);
              ("notional", VNum (equity * RISK_PCT rt))].
Proof.
  intros H Ht Ha. split_paths H Ht; try discriminate Ha.
  do 4 eexists. split; [eassumption|]. repeat split.
Qed.

(** X8. A sell record reports the order that was placed: exactly one order
    was accepted, a SELL for the symbol of the whole quantity the position
    lookup returned, and the record carries that quantity; the account
    equity was not read. *)
Theorem sell_record_matches_order symbol (st st' : state W) result evs :
  evaluate_and_trade rt symbol st = (st', Ok result) ->
  trace st' = trace st ++ evs ->
  has_action "sell" result ->
  exists w w' pos order_id,
    get_position rt symbol w = (w', Ok pos) /\
    accepted_orders evs = [sell_order symbol (qty pos)] /\
    orders_submitted evs = 1%nat /\
    equity_reads evs = 0%nat /\
    result = [("symbol", VStr symbol); ("action", VStr "sell");
              ("order_id", VStr order_id); ("qty", VNum (qty pos))].
Proof.
  intros H Ht Ha. split_paths H Ht; try discriminate Ha.
  do 4 eexists. split; [eassumption|]. repeat split.
Qed.

(** X9. Every order a pipeline submits is for its own symbol and is sized
    by a read made in the same pipeline: a BUY order is sized by notional
    and comes with one account read and no position lookup; a SELL order is
    sized by quantity and comes with one successful position lookup and no
    account read. *)
Theorem order_follows_its_read symbol (st st' : state W) r evs req ok :
  evaluate_and_trade rt symbol st = (st', r) ->
  trace st' = trace st ++ evs ->
  In {| ev_call := SubmitOrder req; ev_ok := ok |} evs ->
  order_symbol req = symbol /\
  ((order_side req = BUY /\ (exists n, order_sizing req = Notional n) /\
    equity_reads evs = 1%nat /\ filter is_position_lookup evs = []) \/
   (order_side req = SELL /\ (exists q, order_sizing req = Qty q) /\
    equity_reads evs = 0%nat /\
    filter is_position_lookup evs = [{| ev_call := GetPosition symbol; ev_ok := true |}])).
Proof.
  intros H Ht Hin. split_paths H Ht; scan_events Hin.
  all: inversion Hin; subst; split; [reflexivity|].
  all: first
    [ solve [left; repeat split; first [reflexivity | eexists; reflexivity]]
    | solve [right; repeat split; first [reflexivity | eexists; reflexivity]] ].
Qed.

(** X10. When a pipeline raises although an order was accepted, the order
    was a BUY and the exception is that of a metric publish made after it:
    the error record the orchestrator stores then stands for a placed
    order. *)
Theorem raise_after_accepted_order symbol (st st' : state W) msg evs req :
  evaluate_and_trade rt symbol st = (st', Raise msg) ->
  trace st' = trace st ++ evs ->
  In {| ev_call := SubmitOrder req; ev_ok := true |} evs ->
  order_side req = BUY /\
  exists earlier d,
    evs = earlier ++ [{| ev_call := PutMetricData "TradingBot" d; ev_ok := false |}] /\
    In {| ev_call := SubmitOrder req; ev_ok := true |} earlier.
Proof.
  intros H Ht Hin. split_paths H Ht; scan_events Hin.
  all: inversion Hin; subst; split; [reflexivity|].
  all: eexists; eexists; split;
    [ match goal with |- ?l = _ =>
        let l' := eval simpl in (removelast l) in
        instantiate (2 := l') end; reflexivity
    | simpl; auto 10 ].
Qed.

End Brokerage.

(** ** Inversion with the arguments of every call *)

Section FullInversion.
Context {W : Type} (rt : Runtime W).

Lemma publish_metric_full name v symbol (st st' : state W) r :
  publish_metric rt name v symbol st = (st', r) ->
  trace st' = trace st ++ [{| ev_call := PutMetricData "TradingBot" (metric_datum name v symbol);
                              ev_ok := is_ok r |}].
Proof.
  unfold publish_metric, metric_datum. intros H. apply perform_inv in H.
  destruct H as [H _]. rewrite H. destruct (PyStr.truthy symbol); reflexivity.
Qed.

Lemma fetch_minute_bars_full symbol minutes (st st' : state W) r :
  fetch_minute_bars rt symbol minutes st = (st', r) ->
  trace st' = trace st ++ [{| ev_call := GetStockBars (bars_request symbol minutes);
                              ev_ok := is_ok r |}].
Proof.
  unfold fetch_minute_bars. fold (bars_request symbol minutes). intros H.
  apply bind_inv in H. destruct H as [(st1 & df & Hp & Hk) | (msg & Hp & ->)].
  - apply perform_inv in Hp. destruct Hp as [Hp _].
    assert (st' = st1 /\ is_ok r = true) as [-> Hr].
    { destruct (negb _) in Hk; apply ret_inv in Hk; destruct Hk; subst; auto. }
    rewrite Hr. exact Hp.
  - apply perform_inv in Hp. destruct Hp as [Hp _]. exact Hp.
Qed.

End FullInversion.

Ltac inv_leaf_full H :=
  lazymatch type of H with
  | publish_metric _ _ _ _ _ = _ => apply publish_metric_full in H
  | fetch_minute_bars _ _ _ _ = _ => apply fetch_minute_bars_full in H
  | get_portfolio_equity _ _ = _ =>
      apply perform_inv in H; destruct H as [H ?]
  | submit_market_notional_order _ _ _ _ _ = _ =>
      apply perform_inv in H; destruct H as [H ?]
  | perform _ _ _ = _ =>
      apply perform_inv in H; destruct H as [H ?]
  | lift _ _ = _ =>
      unfold lift in H; inversion H; subst; clear H
  end.

Ltac inv_run_full H :=
  lazymatch type of H with
  | bind _ _ _ = _ =>
      let H1 := fresh "Hc" in
      let Hr := fresh "Hr" in
      apply bind_inv in H;
      destruct H as [(? & ? & H1 & H) | (? & H1 & Hr)];
      [ inv_leaf_full H1; inv_run_full H
      | try (inversion Hr; clear Hr); subst; inv_leaf_full H1 ]
  | (if ?c then _ else _) _ = _ =>
      destruct c eqn:?; inv_run_full H
  | match ?l with [] => _ | _ :: _ => _ end _ = _ =>
      destruct l eqn:?; inv_run_full H
  | ret _ _ = _ =>
      let Hr := fresh "Hr" in
      apply ret_inv in H; destruct H as [? Hr];
      try discriminate Hr; try (inversion Hr; clear Hr); subst
  | try_except _ _ _ = _ =>
      let H1 := fresh "Hc" in
      let Hr := fresh "Hr" in
      apply try_except_inv in H;
      destruct H as [(? & H & Hr) | (? & ? & H1 & H)];
      [ try (inversion Hr; clear Hr); subst; inv_run_full H
      | inv_run_full H1; inv_run_full H ]
  | _ => inv_leaf_full H
  end.

Ltac split_paths_full H Ht :=
  unfold evaluate_and_trade in H; revert Ht; inv_run_full H; flatten_traces;
  intros Ht; apply app_inv_head in Ht; subst.

(** ** The indicator frame *)

Section Frame.
Context {W : Type} (rt : Runtime W).

Lemma indicator_rows_columns (closes rsi ema : list float) :
  List.length rsi = List.length closes ->
  List.length ema = List.length closes ->
  map close (indicator_rows closes rsi ema) = closes /\
  map rsi14 (indicator_rows closes rsi ema) = rsi /\
  map ema9 (indicator_rows closes rsi ema) = ema.
Proof.
  revert rsi ema. induction closes as [|c closes IH]; intros rsi ema Lr Le.
  - destruct rsi, ema; try discriminate. repeat split.
  - destruct rsi as [|r rsi], ema as [|e ema]; try discriminate.
    simpl in Lr, Le. injection Lr as Lr. injection Le as Le.
    destruct (IH rsi ema Lr Le) as (Hc & Hr & He).
    unfold indicator_rows in *. simpl. rewrite Hc, Hr, He. repeat split.
Qed.

Lemma rows_from_columns (df : list IndicatorRow) :
  df = indicator_rows (map close df) (map rsi14 df) (map ema9 df).
Proof.
  induction df as [|[c r e] df IH]; [reflexivity|].
  unfold indicator_rows in *. simpl. f_equal. exact IH.
Qed.

(** X11. [compute_indicators] returns a frame exactly when both TA-Lib
    calls return arrays as long as the input; the frame is then aligned with
    the input: row i holds close i and the i-th value of each array. *)
Theorem compute_indicators_frame (closes : list float) (df : list IndicatorRow) :
  compute_indicators rt closes = Ok df <->
  talib_RSI rt closes 14 = Ok (map rsi14 df) /\
  talib_EMA rt closes 9 = Ok (map ema9 df) /\
  map close df = closes.
Proof.
  unfold compute_indicators, assign_column. split.
  - intros H.
    destruct (talib_RSI rt closes 14) as [rsi|m]; [|discriminate H].
    destruct (List.length rsi =? List.length closes)%nat eqn:Lr; [|discriminate H].
    destruct (talib_EMA rt closes 9) as [ema|m]; [|discriminate H].
    destruct (List.length ema =? List.length closes)%nat eqn:Le; [|discriminate H].
    apply Nat.eqb_eq in Lr, Le. inversion H as [Hdf].
    destruct (indicator_rows_columns closes rsi ema Lr Le) as (Hc & Hr & He).
    fold (indicator_rows closes rsi ema). rewrite Hc, Hr, He. repeat split.
  - intros (Hr & He & Hc). subst closes. rewrite Hr, He.
    rewrite !length_map, !Nat.eqb_refl.
    fold (indicator_rows (map close df) (map rsi14 df) (map ema9 df)).
    rewrite <- rows_from_columns. reflexivity.
Qed.

(** The row the decision reads has no NaN cell. *)
Lemma last_defined (df : list IndicatorRow) i l :
  dropna df = i :: l -> defined_row (last (i :: l) nan_row).
Proof.
  intros H.
  assert (Hin : In (last (i :: l) nan_row) (dropna df)).
  { rewrite H. destruct (exists_last (l := i :: l)) as (l' & a & E); [discriminate|].
    rewrite E, last_last. apply in_or_app. right. left. reflexivity. }
  apply filter_In in Hin. destruct Hin as [_ Hd].
  apply negb_true_iff in Hd. apply orb_false_iff in Hd. destruct Hd as [Hd He].
  apply orb_false_iff in Hd. destruct Hd as [Hc Hr]. repeat split; assumption.
Qed.

(** X12. No NaN leaves the pipeline as an indicator: every RSI, EMA9 and
    Price datum handed to the metrics sink has a defined value, and so have
    the three numbers of a no_signal record. *)
Theorem snapshot_defined symbol (st st' : state W) r evs :
  evaluate_and_trade rt symbol st = (st', r) ->
  trace st' = trace st ++ evs ->
  (forall ns d ok,
     In {| ev_call := PutMetricData ns d; ev_ok := ok |} evs ->
     MetricName d = "RSI" \/ MetricName d = "EMA9" \/ MetricName d = "Price" ->
     is_nan (Value d) = false) /\
  (forall result k x,
     r = Ok result -> has_action "no_signal" result ->
     dict_get k result = Some (VNum x) -> is_nan x = false).
Proof.
  intros H Ht. split_paths_full H Ht.
  all: try match goal with
           | Hd : dropna _ = _ :: _ |- _ =>
               apply last_defined in Hd; destruct Hd as (Dc & Dr & De)
           end.
  all: split;
    [ intros ns0 dat ok0 Hin Hn; cbn [In] in Hin;
      repeat (destruct Hin as [Hin|Hin];
              [try discriminate Hin; inversion Hin; subst;
               cbn [Value MetricName metric_datum] in Hn |- *;
               try assumption;
               destruct Hn as [Hn|[Hn|Hn]]; discriminate Hn|]);
      contradiction
    | intros result0 key val Hr Ha Hk; inversion Hr; subst;
      try discriminate Ha ].
  cbn [dict_get no_signal_record] in Hk.
  repeat match type of Hk with
         | context [if ?c then _ else _] => destruct c; try discriminate Hk
         end;
    inversion Hk; subst; assumption.
Qed.

End Frame.

(** ** Signals, requests and orders of a whole invocation *)

Section Invocation.
Context {W : Type} (rt : Runtime W).

(** X13. The sink accepts a BuySignal datum exactly when the pipeline
    returns a buy record, and a SellSignal datum exactly when it returns a
    sell record. *)
Theorem signal_metric_means_trade symbol (st st' : state W) r evs :
  evaluate_and_trade rt symbol st = (st', r) ->
  trace st' = trace st ++ evs ->
  (In "BuySignal" (metrics_published evs) <->
     exists result, r = Ok result /\ has_action "buy" result) /\
  (In "SellSignal" (metrics_published evs) <->
     exists result, r = Ok result /\ has_action "sell" result).
Proof.
  intros H Ht. split_paths_full H Ht.
  all: unfold metrics_published, has_action; cbn.
  all: split; split;
    [ intros Hin;
      repeat (destruct Hin as [Hin|Hin]; [try discriminate Hin|]);
      try contradiction; eexists; split; reflexivity
    | intros (res & Hr & Ha); inversion Hr; subst; try discriminate Ha;
      repeat (first [left; reflexivity | right])
    | intros Hin;
      repeat (destruct Hin as [Hin|Hin]; [try discriminate Hin|]);
      try contradiction; eexists; split; reflexivity
    | intros (res & Hr & Ha); inversion Hr; subst; try discriminate Ha;
      repeat (first [left; reflexivity | right]) ].
Qed.

(** X14. When the market-data request for a symbol raises, nothing else is
    called for that symbol and the orchestrator stores an error record that
    carries the configured string and the provider's message unchanged. *)
Theorem provider_failure_recorded results sym (st : state W) w' msg :
  get_stock_bars rt
    (bars_request (PyStr.upper (PyStr.strip sym)) (MINUTES_HISTORY rt))
    (world st) = (w', Raise msg) ->
  process_symbol rt results sym st =
    ({| world := w';
        trace := trace st ++
          [{| ev_call := GetStockBars
                (bars_request (PyStr.upper (PyStr.strip sym)) (MINUTES_HISTORY rt));
              ev_ok := false |}] |},
     Ok (results ++ [error_record sym msg])).
Proof.
  intros H. rewrite process_symbol_eq. unfold slot_of.
  assert (E : evaluate_and_trade rt (PyStr.upper (PyStr.strip sym)) st =
              ({| world := w';
                  trace := trace st ++
                    [{| ev_call := GetStockBars
                          (bars_request (PyStr.upper (PyStr.strip sym)) (MINUTES_HISTORY rt));
                        ev_ok := false |}] |}, Raise msg)).
  { unfold evaluate_and_trade, fetch_minute_bars.
    fold (bars_request (PyStr.upper (PyStr.strip sym)) (MINUTES_HISTORY rt)).
    unfold bind. rewrite (perform_eq _ _ _ _ _ H). reflexivity. }
  rewrite E. reflexivity.
Qed.

(** Requests and accepted orders of one pipeline, against its outcome. *)
Lemma pipeline_effects symbol (st st' : state W) r evs :
  evaluate_and_trade rt symbol st = (st', r) ->
  trace st' = trace st ++ evs ->
  bars_requests evs = [bars_request symbol (MINUTES_HISTORY rt)] /\
  (List.length (accepted_orders evs) <= 1)%nat /\
  forall result, r = Ok result ->
    (count_action "buy" [result] + count_action "sell" [result]
       <= List.length (accepted_orders evs))%nat /\
    (List.length (accepted_orders evs)
       <= count_action "buy" [result] + count_action "sell" [result]
          + count_action "nothing_to_sell" [result])%nat.
Proof.
  intros H Ht. split_paths_full H Ht.
  all: split; [reflexivity|].
  all: split; [simpl; lia|].
  all: intros result0 Hr; inversion Hr; subst.
  all: unfold count_action; simpl; lia.
Qed.

Lemma bars_requests_app (evs evs' : list event) :
  bars_requests (evs ++ evs') = bars_requests evs ++ bars_requests evs'.
Proof. apply flat_map_app. Qed.

Lemma accepted_orders_app (evs evs' : list event) :
  accepted_orders (evs ++ evs') = accepted_orders evs ++ accepted_orders evs'.
Proof. apply flat_map_app. Qed.

Lemma orders_submitted_app (evs evs' : list event) :
  orders_submitted (evs ++ evs') = (orders_submitted evs + orders_submitted evs')%nat.
Proof. unfold orders_submitted. rewrite filter_app, length_app. reflexivity. Qed.

(** The same for one turn of the loop, against the record it stores. *)
Lemma slot_effects sym (st : state W) :
  exists evs,
    trace (fst (evaluate_and_trade rt (PyStr.upper (PyStr.strip sym)) st))
      = trace st ++ evs /\
    bars_requests evs =
      [bars_request (PyStr.upper (PyStr.strip sym)) (MINUTES_HISTORY rt)] /\
    (orders_submitted evs <= 1)%nat /\
    (count_action "buy" [slot_of rt sym st] + count_action "sell" [slot_of rt sym st]
       <= List.length (accepted_orders evs))%nat /\
    (List.length (accepted_orders evs)
       <= count_action "buy" [slot_of rt sym st] + count_action "sell" [slot_of rt sym st]
          + count_action "error" [slot_of rt sym st]
          + count_action "nothing_to_sell" [slot_of rt sym st])%nat.
Proof.
  unfold slot_of.
  destruct (evaluate_and_trade rt (PyStr.upper (PyStr.strip sym)) st)
    as [st1 r] eqn:E.
  destruct (evaluate_and_trade_extends _ _ _ _ _ E) as (evs & Ht).
  exists evs. split; [exact Ht|].
  destruct (pipeline_effects _ _ _ _ _ E Ht) as (Hb & Hle & Hok).
  split; [exact Hb|].
  split; [exact (one_order_at_most rt _ _ _ _ _ E Ht)|].
  destruct r as [result|msg].
  - destruct (Hok result eq_refl) as [Lo Hi]. split; [exact Lo|]. lia.
  - unfold count_action. simpl. lia.
Qed.

Lemma for_each_effects (symbols : list string) :
  forall acc (st : state W),
  exists st' out evs,
    for_each symbols (process_symbol rt) acc st = (st', Ok (acc ++ out)) /\
    trace st' = trace st ++ evs /\
    bars_requests evs =
      map (fun s => bars_request (PyStr.upper (PyStr.strip s)) (MINUTES_HISTORY rt))
          symbols /\
    (orders_submitted evs <= List.length symbols)%nat /\
    (count_action "buy" out + count_action "sell" out
       <= List.length (accepted_orders evs))%nat /\
    (List.length (accepted_orders evs)
       <= count_action "buy" out + count_action "sell" out
          + count_action "error" out + count_action "nothing_to_sell" out)%nat.
Proof.
  induction symbols as [|s rest IH]; intros acc st.
  - exists st, [], []. rewrite !app_nil_r. repeat split; simpl; auto.
  - simpl. unfold bind at 1. rewrite process_symbol_eq. simpl.
    destruct (slot_effects s st) as (evs1 & T1 & B1 & O1 & Lo1 & Hi1).
    destruct (IH (acc ++ [slot_of rt s st])
                 (fst (evaluate_and_trade rt (PyStr.upper (PyStr.strip s)) st)))
      as (st' & out & evs2 & E & T2 & B2 & O2 & Lo2 & Hi2).
    exists st', (slot_of rt s st :: out), (evs1 ++ evs2).
    split; [rewrite E, <- app_assoc; reflexivity|].
    split; [rewrite T2, T1, app_assoc; reflexivity|].
    split; [rewrite bars_requests_app, B1, B2; reflexivity|].
    rewrite orders_submitted_app, accepted_orders_app, length_app.
    change (slot_of rt s st :: out) with ([slot_of rt s st] ++ out).
    rewrite !count_action_app. repeat split; lia.
Qed.

(** The events of a completed invocation: the preamble, then the loop. *)
Lemma lambda_handler_events (st st' : state W) resp evs :
  lambda_handler rt st = (st', Ok resp) ->
  trace st' = trace st ++ evs ->
  exists d st2 loop_evs,
    evs = {| ev_call := GetAccount; ev_ok := true |}
            :: {| ev_call := PutMetricData "TradingBot" d; ev_ok := true |}
            :: loop_evs /\
    run_symbols rt (SYMBOLS rt) st2 = (st', Ok (body resp)) /\
    trace st' = trace st2 ++ loop_evs.
Proof.
  intros H Ht. unfold lambda_handler in H.
  apply bind_inv in H. destruct H as [(st1 & equity & H1 & H) | (? & _ & Hr)];
    [|discriminate Hr].
  apply bind_inv in H. destruct H as [(st2 & [] & H2 & H) | (? & _ & Hr)];
    [|discriminate Hr].
  apply bind_inv in H. destruct H as [(st3 & results & H3 & H) | (? & _ & Hr)];
    [|discriminate Hr].
  apply ret_inv in H. destruct H as [-> Hr]. inversion Hr; subst resp. simpl.
  apply perform_inv in H1. destruct H1 as [T1 _]. simpl in T1.
  apply publish_metric_inv in H2. destruct H2 as (d & _ & T2). simpl in T2.
  destruct (for_each_effects (SYMBOLS rt) [] st2) as (st'' & out & evs3 & E & T3 & _).
  unfold run_symbols. rewrite H3 in E. inversion E; subst st'' results. clear E.
  exists d, st2, evs3. split; [|split; [exact H3 | exact T3]].
  rewrite T3, T2, T1, <- !app_assoc in Ht. simpl in Ht.
  apply app_inv_head in Ht. symmetry. exact Ht.
Qed.

(** X15. A completed invocation sends exactly one market-data request per
    configured symbol, in input order, each for the trimmed and uppercased
    symbol with a lookback of twice MINUTES_HISTORY. *)
Theorem one_request_per_symbol (st st' : state W) resp evs :
  lambda_handler rt st = (st', Ok resp) ->
  trace st' = trace st ++ evs ->
  bars_requests evs =
    map (fun s => bars_request (PyStr.upper (PyStr.strip s)) (MINUTES_HISTORY rt))
        (SYMBOLS rt).
Proof.
  intros H Ht.
  destruct (lambda_handler_events _ _ _ _ H Ht) as (d & st2 & evs3 & -> & Hrun & T).
  destruct (for_each_effects (SYMBOLS rt) [] st2)
    as (st'' & out & evs' & E & T' & B & _).
  unfold run_symbols in Hrun. rewrite Hrun in E. inversion E; subst st''.
  rewrite T' in T. apply app_inv_head in T. subst evs'.
  simpl. exact B.
Qed.

(** X16. In a completed invocation at most one order is submitted per
    configured symbol; every buy and every sell record stands for an
    accepted order, and an accepted order that no buy or sell record reports
    lies behind an error or a nothing_to_sell record. *)
Theorem orders_against_records (st st' : state W) resp evs :
  lambda_handler rt st = (st', Ok resp) ->
  trace st' = trace st ++ evs ->
  (orders_submitted evs <= List.length (SYMBOLS rt))%nat /\
  (count_action "buy" (body resp) + count_action "sell" (body resp)
     <= List.length (accepted_orders evs))%nat /\
  (List.length (accepted_orders evs)
     <= count_action "buy" (body resp) + count_action "sell" (body resp)
        + count_action "error" (body resp)
        + count_action "nothing_to_sell" (body resp))%nat.
Proof.
  intros H Ht.
  destruct (lambda_handler_events _ _ _ _ H Ht) as (d & st2 & evs3 & -> & Hrun & T).
  destruct (for_each_effects (SYMBOLS rt) [] st2)
    as (st'' & out & evs' & E & T' & _ & O & Lo & Hi).
  unfold run_symbols in Hrun. rewrite Hrun in E. inversion E as [[Hs Ho]]; subst st''.
  rewrite T' in T. apply app_inv_head in T. subst evs'.
  simpl in Ho. subst out.
  unfold orders_submitted in *. simpl. repeat split; assumption.
Qed.

End Invocation.

(** ** Symbol normalization *)

Section Normalization.

Lemma isspace_toupper (c : ascii) : PyStr.isspace (PyStr.toupper c) = PyStr.isspace c.
Proof. destruct c as [[] [] [] [] [] [] [] []]; reflexivity. Qed.

Lemma toupper_toupper (c : ascii) : PyStr.toupper (PyStr.toupper c) = PyStr.toupper c.
Proof. destruct c as [[] [] [] [] [] [] [] []]; reflexivity. Qed.

Lemma upper_upper (s : string) : PyStr.upper (PyStr.upper s) = PyStr.upper s.
Proof.
  induction s as [|c s IH]; simpl; [reflexivity|].
  rewrite toupper_toupper, IH. reflexivity.
Qed.

Lemma upper_empty (s : string) : (PyStr.upper s =? "") = (s =? "").
Proof. destruct s; reflexivity. Qed.

Lemma upper_lstrip (s : string) :
  PyStr.upper (PyStr.lstrip s) = PyStr.lstrip (PyStr.upper s).
Proof.
  induction s as [|c s IH]; simpl; [reflexivity|].
  rewrite isspace_toupper. destruct (PyStr.isspace c); [exact IH | reflexivity].
Qed.

Lemma upper_rstrip (s : string) :
  PyStr.upper (PyStr.rstrip s) = PyStr.rstrip (PyStr.upper s).
Proof.
  induction s as [|c s IH]; simpl; [reflexivity|].
  rewrite isspace_toupper, <- IH, upper_empty.
  destruct (PyStr.isspace c && (PyStr.rstrip s =? "")); reflexivity.
Qed.

Lemma rstrip_rstrip (s : string) : PyStr.rstrip (PyStr.rstrip s) = PyStr.rstrip s.
Proof.
  induction s as [|c s IH]; simpl; [reflexivity|].
  destruct (PyStr.isspace c && (PyStr.rstrip s =? "")) eqn:E; [reflexivity|].
  simpl. rewrite IH, E. reflexivity.
Qed.

(** Trimming the right end keeps a left end that has nothing to trim. *)
Lemma lstrip_rstrip_lstrip (s : string) :
  PyStr.lstrip (PyStr.rstrip (PyStr.lstrip s)) = PyStr.rstrip (PyStr.lstrip s).
Proof.
  induction s as [|c s IH]; simpl; [reflexivity|].
  destruct (PyStr.isspace c) eqn:E; [exact IH|].
  simpl. rewrite E. simpl. rewrite E. reflexivity.
Qed.

Lemma strip_strip (s : string) : PyStr.strip (PyStr.strip s) = PyStr.strip s.
Proof.
  unfold PyStr.strip. rewrite lstrip_rstrip_lstrip. apply rstrip_rstrip.
Qed.

(** X17. Normalizing is idempotent: the symbol a pipeline runs with, and
    that its records carry, is left unchanged by trimming and uppercasing it
    again. *)
Theorem normalized_symbol_stable (sym : string) :
  PyStr.upper (PyStr.strip (PyStr.upper (PyStr.strip sym))) =
    PyStr.upper (PyStr.strip sym).
Proof.
  unfold PyStr.strip at 1.
  rewrite <- upper_lstrip, <- upper_rstrip, upper_upper.
  fold (PyStr.strip (PyStr.strip sym)). rewrite strip_strip. reflexivity.
Qed.

End Normalization.

(** ** The further statements on the scripted venue *)

Lemma fetch_window_witness :
  List.length (rows (Sim.fetched_frame (Sim.windowed 5) "MID")) = 5%nat.
Proof.
  apply (fetch_window (Sim.windowed 5) "MID" 5 Sim.init
           (fst (fetch_minute_bars (Sim.windowed 5) "MID" 5 Sim.init))
           (Sim.fetched_frame (Sim.windowed 5) "MID") tt
           (Sim.frame_of "MID" Sim.choppy)).
  - reflexivity.
  - vm_compute. reflexivity.
  - lia.
Defined.

Lemma fetch_keeps_latest_witness :
  StronglySorted by_time (rows (Sim.fetched_frame (Sim.windowed 5) "MID")).
Proof.
  refine (proj1 (proj2 (fetch_keeps_latest (Sim.windowed 5) "MID" 5 Sim.init
           (fst (fetch_minute_bars (Sim.windowed 5) "MID" 5 Sim.init))
           (Sim.fetched_frame (Sim.windowed 5) "MID") tt
           (Sim.frame_of "MID" Sim.choppy) _ _))).
  - reflexivity.
  - vm_compute. reflexivity.
Defined.

Lemma fetch_zero_window_witness :
  Permutation (rows (Sim.fetched_frame (Sim.windowed 0) "MID"))
              (bars_of "MID" (Sim.frame_of "MID" Sim.choppy)).
Proof.
  apply (fetch_zero_window (Sim.windowed 0) "MID" Sim.init
           (fst (fetch_minute_bars (Sim.windowed 0) "MID" 0 Sim.init))
           (Sim.fetched_frame (Sim.windowed 0) "MID") tt
           (Sim.frame_of "MID" Sim.choppy)).
  - reflexivity.
  - vm_compute. reflexivity.
Defined.

Lemma one_order_at_most_witness :
  (orders_submitted
     (trace (fst (evaluate_and_trade (Sim.bot Sim.healthy []) "DOWN" Sim.init))) <= 1)%nat.
Proof.
  apply (one_order_at_most (Sim.bot Sim.healthy []) "DOWN" Sim.init
           (fst (evaluate_and_trade (Sim.bot Sim.healthy []) "DOWN" Sim.init))
           (snd (evaluate_and_trade (Sim.bot Sim.healthy []) "DOWN" Sim.init))).
  - apply surjective_pairing.
  - reflexivity.
Defined.

Lemma quiet_outcomes_witness :
  filter is_brokerage
    (trace (fst (evaluate_and_trade (Sim.bot Sim.healthy []) "MID" Sim.init))) = [].
Proof.
  apply (quiet_outcomes (Sim.bot Sim.healthy []) "MID" Sim.init
           (fst (evaluate_and_trade (Sim.bot Sim.healthy []) "MID" Sim.init))
           (no_signal_record "MID" Sim.mid_last)).
  - vm_compute. reflexivity.
  - reflexivity.
  - right. right. reflexivity.
Defined.

Lemma brokerage_after_snapshot_witness :
  exists req d1 d2 d3 rest,
    trace (fst (evaluate_and_trade (Sim.bot Sim.healthy []) "DOWN" Sim.init)) =
      {| ev_call := GetStockBars req; ev_ok := true |}
        :: {| ev_call := PutMetricData "TradingBot" d1; ev_ok := true |}
        :: {| ev_call := PutMetricData "TradingBot" d2; ev_ok := true |}
        :: {| ev_call := PutMetricData "TradingBot" d3; ev_ok := true |}
        :: rest /\
    MetricName d1 = "RSI" /\ MetricName d2 = "EMA9" /\ MetricName d3 = "Price" /\
    In {| ev_call := GetAccount; ev_ok := true |} rest.
Proof.
  apply (brokerage_after_snapshot (Sim.bot Sim.healthy []) "DOWN" Sim.init
           (fst (evaluate_and_trade (Sim.bot Sim.healthy []) "DOWN" Sim.init))
           (snd (evaluate_and_trade (Sim.bot Sim.healthy []) "DOWN" Sim.init))).
  - apply surjective_pairing.
  - reflexivity.
  - vm_compute. do 4 right. left. reflexivity.
  - reflexivity.
Defined.

Lemma buy_record_matches_order_witness :
  exists w w' equity order_id,
    get_account (Sim.bot Sim.healthy []) w = (w', Ok equity) /\
    accepted_orders
      (trace (fst (evaluate_and_trade (Sim.bot Sim.healthy []) "DOWN" Sim.init))) =
      [{| order_symbol := "DOWN";
          order_sizing := Notional (equity * 0.25)%float;
          order_side := BUY;
          time_in_force := DAY |}] /\
    orders_submitted
      (trace (fst (evaluate_and_trade (Sim.bot Sim.healthy []) "DOWN" Sim.init))) = 1%nat /\
    [("symbol", VStr "DOWN"); ("action", VStr "buy");
     ("order_id", VStr "order-1"); ("notional", VNum 25000%float)] =
    [("symbol", VStr "DOWN"); ("action", VStr "buy");
     ("order_id", VStr order_id); ("notional", VNum (equity * 0.25)%float)].
Proof.
  apply (buy_record_matches_order (Sim.bot Sim.healthy []) "DOWN" Sim.init
           (fst (evaluate_and_trade (Sim.bot Sim.healthy []) "DOWN" Sim.init))).
  - vm_compute. reflexivity.
  - reflexivity.
  - reflexivity.
Defined.

Lemma sell_record_matches_order_witness :
  exists w w' pos order_id,
    get_position (Sim.bot Sim.healthy []) "UP" w = (w', Ok pos) /\
    accepted_orders
      (trace (fst (evaluate_and_trade (Sim.bot Sim.healthy []) "UP" Sim.init))) =
      [sell_order "UP" (qty pos)] /\
    orders_submitted
      (trace (fst (evaluate_and_trade (Sim.bot Sim.healthy []) "UP" Sim.init))) = 1%nat /\
    equity_reads
      (trace (fst (evaluate_and_trade (Sim.bot Sim.healthy []) "UP" Sim.init))) = 0%nat /\
    [("symbol", VStr "UP"); ("action", VStr "sell");
     ("order_id", VStr "order-1"); ("qty", VNum 5%float)] =
    [("symbol", VStr "UP"); ("action", VStr "sell");
     ("order_id", VStr order_id); ("qty", VNum (qty pos))].
Proof.
  apply (sell_record_matches_order (Sim.bot Sim.healthy []) "UP" Sim.init
           (fst (evaluate_and_trade (Sim.bot Sim.healthy []) "UP" Sim.init))).
  - vm_compute. reflexivity.
  - reflexivity.
  - reflexivity.
Defined.

Lemma order_follows_its_read_witness :
  equity_reads
    (trace (fst (evaluate_and_trade (Sim.bot Sim.healthy []) "UP" Sim.init))) = 0%nat.
Proof.
  destruct (order_follows_its_read (Sim.bot Sim.healthy []) "UP" Sim.init
              (fst (evaluate_and_trade (Sim.bot Sim.healthy []) "UP" Sim.init))
              (snd (evaluate_and_trade (Sim.bot Sim.healthy []) "UP" Sim.init))
              (trace (fst (evaluate_and_trade (Sim.bot Sim.healthy []) "UP" Sim.init)))
              (sell_order "UP" 5%float) true)
    as [_ [(Hside & _) | (_ & _ & Hreads & _)]].
  - apply surjective_pairing.
  - reflexivity.
  - vm_compute. do 7 right. left. reflexivity.
  - discriminate Hside.
  - exact Hreads.
Defined.

Lemma raise_after_accepted_order_witness :
  exists earlier d,
    trace (fst (evaluate_and_trade (Sim.bot (Sim.sink_rejects "BuySignal") [])
                  "DOWN" Sim.init)) =
      earlier ++ [{| ev_call := PutMetricData "TradingBot" d; ev_ok := false |}].
Proof.
  destruct (raise_after_accepted_order (Sim.bot (Sim.sink_rejects "BuySignal") [])
              "DOWN" Sim.init
              (fst (evaluate_and_trade (Sim.bot (Sim.sink_rejects "BuySignal") [])
                      "DOWN" Sim.init))
              "metrics sink unavailable"
              (trace (fst (evaluate_and_trade (Sim.bot (Sim.sink_rejects "BuySignal") [])
                             "DOWN" Sim.init)))
              {| order_symbol := "DOWN";
                 order_sizing := Notional 25000%float;
                 order_side := BUY;
                 time_in_force := DAY |})
    as (_ & earlier & d & E & _).
  - vm_compute. reflexivity.
  - reflexivity.
  - vm_compute. do 5 right. left. reflexivity.
  - exists earlier, d. exact E.
Defined.

Lemma snapshot_defined_witness :
  is_nan (rsi14 Sim.mid_last) = false.
Proof.
  refine (proj2 (snapshot_defined (Sim.bot Sim.healthy []) "MID" Sim.init
                   (fst (evaluate_and_trade (Sim.bot Sim.healthy []) "MID" Sim.init))
                   (snd (evaluate_and_trade (Sim.bot Sim.healthy []) "MID" Sim.init))
                   (trace (fst (evaluate_and_trade (Sim.bot Sim.healthy []) "MID" Sim.init)))
                   (surjective_pairing _) eq_refl)
                (no_signal_record "MID" Sim.mid_last) "rsi" (rsi14 Sim.mid_last) _ _ _).
  - vm_compute. reflexivity.
  - reflexivity.
  - reflexivity.
Defined.

Lemma signal_metric_means_trade_witness :
  In "BuySignal"
     (metrics_published
        (trace (fst (evaluate_and_trade (Sim.bot Sim.healthy []) "DOWN" Sim.init)))).
Proof.
  apply (proj1 (signal_metric_means_trade (Sim.bot Sim.healthy []) "DOWN" Sim.init
                  (fst (evaluate_and_trade (Sim.bot Sim.healthy []) "DOWN" Sim.init))
                  (snd (evaluate_and_trade (Sim.bot Sim.healthy []) "DOWN" Sim.init))
                  (trace (fst (evaluate_and_trade (Sim.bot Sim.healthy []) "DOWN" Sim.init)))
                  (surjective_pairing _) eq_refl)).
  eexists. split; [vm_compute; reflexivity | reflexivity].
Defined.

Lemma provider_failure_recorded_witness :
  snd (process_symbol (Sim.bot Sim.healthy []) [] " bad" Sim.init) =
    Ok [error_record " bad" "data provider unavailable"].
Proof.
  rewrite (provider_failure_recorded (Sim.bot Sim.healthy []) [] " bad" Sim.init tt
             "data provider unavailable" eq_refl).
  reflexivity.
Defined.

Lemma one_request_per_symbol_witness :
  bars_requests
    (trace (fst (lambda_handler (Sim.bot Sim.healthy [" down"; "BAD"; "mid "]) Sim.init))) =
    [bars_request "DOWN" 30; bars_request "BAD" 30; bars_request "MID" 30].
Proof.
  apply (one_request_per_symbol (Sim.bot Sim.healthy [" down"; "BAD"; "mid "]) Sim.init
           (fst (lambda_handler (Sim.bot Sim.healthy [" down"; "BAD"; "mid "]) Sim.init))
           (Sim.response (Sim.bot Sim.healthy [" down"; "BAD"; "mid "]))).
  - vm_compute. reflexivity.
  - reflexivity.
Defined.

Lemma orders_against_records_witness :
  (orders_submitted
     (trace (fst (lambda_handler (Sim.bot Sim.healthy ["DOWN"; "UP"; "MID"]) Sim.init)))
   <= 3)%nat.
Proof.
  refine (proj1 (orders_against_records (Sim.bot Sim.healthy ["DOWN"; "UP"; "MID"]) Sim.init
           (fst (lambda_handler (Sim.bot Sim.healthy ["DOWN"; "UP"; "MID"]) Sim.init))
           (Sim.response (Sim.bot Sim.healthy ["DOWN"; "UP"; "MID"]))
           (trace (fst (lambda_handler (Sim.bot Sim.healthy ["DOWN"; "UP"; "MID"]) Sim.init)))
           _ _)).
  - vm_compute. reflexivity.
  - reflexivity.
Defined.

Lemma symbol_field_of_slot_witness :
  exists lead core tail,
    " mid  " = (lead ++ core ++ tail)%string /\
    SymbolSpec.all_blank lead /\ SymbolSpec.all_blank tail /\
    SymbolSpec.starts_clean core /\ SymbolSpec.ends_clean core /\
    PyStr.upper (PyStr.strip " mid  ") = SymbolSpec.capitalized core /\
    match evaluate_and_trade (Sim.bot Sim.healthy []) (PyStr.upper (PyStr.strip " mid  "))
            Sim.init with
    | (st', Ok result) =>
        process_symbol (Sim.bot Sim.healthy []) [] " mid  " Sim.init =
          (st', Ok ([] ++ [result])) /\
        symbol_of result = Some (VStr (SymbolSpec.capitalized core))
    | (st', Raise msg) =>
        exists r,
          process_symbol (Sim.bot Sim.healthy []) [] " mid  " Sim.init =
            (st', Ok ([] ++ [r])) /\
          has_action "error" r /\
          symbol_of r = Some (VStr " mid  ")
    end.
Proof.
  exact (proj1 (symbol_field_of_slot (Sim.bot Sim.healthy []) " mid  " [] Sim.init
                  eq_refl)).
Defined.
